(** * gomreport: the omcliproxy trust gate and the code-to-label tables

    A shallow embedding of [omreport.go] (the binary trust gate around the
    external [omcliproxy] tool) and of the [String] methods of the
    status/state/bus-protocol/layout enumerations, together with the
    properties the specification states about them.

    Go values are embedded as follows: [string] is [String.string] (a
    sequence of 8-bit characters, as in Go), [[]byte] is [list byte],
    [int] is [Z], [error] is an inductive of the error values this
    package can produce, and the operating system (files, descriptors,
    spawned processes) is an explicit [World] threaded through every
    operation. *)

From Stdlib Require Import ZArith NArith List String Ascii Lia.
From Stdlib Require Import Strings.Byte.
From stdpp Require Import base option list strings pretty gmap.
Import ListNotations.

Local Open Scope Z_scope.

(** ** Bytes *)

(** The value of a byte, and [byte(z)]: the low eight bits of [z]. *)
Definition byteZ (b : byte) : Z := Z.of_N (Byte.to_N b).
Definition Zbyte (z : Z) : byte :=
  match Byte.of_N (Z.to_N (z mod 256)) with
  | Some b => b
  | None => x00
  end.

(** ** crypto/sha256

    FIPS 180-4 SHA-256 over 32-bit words held in [Z]. *)
Module SHA256.

Definition Size : nat := 32.

Definition mask32 : Z := 0xffffffff.
Definition w32 (x : Z) : Z := x mod 2 ^ 32.
Definition add32 (x y : Z) : Z := w32 (x + y).
Definition not32 (x : Z) : Z := Z.lxor x mask32.
Definition rotr (n x : Z) : Z :=
  Z.lor (Z.shiftr x n) (w32 (Z.shiftl x (32 - n))).

Definition Ch (x y z : Z) : Z := Z.lxor (Z.land x y) (Z.land (not32 x) z).
Definition Maj (x y z : Z) : Z :=
  Z.lxor (Z.lxor (Z.land x y) (Z.land x z)) (Z.land y z).
Definition bsig0 (x : Z) : Z :=
  Z.lxor (Z.lxor (rotr 2 x) (rotr 13 x)) (rotr 22 x).
Definition bsig1 (x : Z) : Z :=
  Z.lxor (Z.lxor (rotr 6 x) (rotr 11 x)) (rotr 25 x).
Definition ssig0 (x : Z) : Z :=
  Z.lxor (Z.lxor (rotr 7 x) (rotr 18 x)) (Z.shiftr x 3).
Definition ssig1 (x : Z) : Z :=
  Z.lxor (Z.lxor (rotr 17 x) (rotr 19 x)) (Z.shiftr x 10).

(** The constants are what FIPS 180-4 says they are: the first 32 bits
    of the fractional parts of the cube roots (round constants) and of
    the square roots (initial hash value) of the first primes. *)
Definition primes : list Z :=
  [ 2; 3; 5; 7; 11; 13; 17; 19; 23; 29; 31; 37; 41; 43; 47; 53; 59; 61;
    67; 71; 73; 79; 83; 89; 97; 101; 103; 107; 109; 113; 127; 131; 137;
    139; 149; 151; 157; 163; 167; 173; 179; 181; 191; 193; 197; 199; 211;
    223; 227; 229; 233; 239; 241; 251; 257; 263; 269; 271; 277; 281; 283;
    293; 307; 311 ].

(** The largest [r] in [lo, hi) with [r ^ 3 <= n], by bisection. *)
Fixpoint cbrt_between (fuel : nat) (lo hi n : Z) : Z :=
  match fuel with
  | O => lo
  | S fuel' =>
      let mid := (lo + hi) / 2 in
      if mid * mid * mid <=? n then cbrt_between fuel' mid hi n
      else cbrt_between fuel' lo mid n
  end.

Definition frac_cbrt (p : Z) : Z :=
  w32 (cbrt_between 40 0 (2 ^ 36) (p * 2 ^ 96)).
Definition frac_sqrt (p : Z) : Z := w32 (Z.sqrt (p * 2 ^ 64)).

Definition K : list Z := Eval vm_compute in map frac_cbrt primes.

(** The eight working variables / chaining values. *)
Record regs : Type := Regs {
  ra : Z; rb : Z; rc : Z; rd : Z; re : Z; rf : Z; rg : Z; rh : Z
}.

Definition init : regs :=
  Eval vm_compute in
    match map frac_sqrt (firstn 8 primes) with
    | [a; b; c; d; e; f; g; h] => Regs a b c d e f g h
    | _ => Regs 0 0 0 0 0 0 0 0
    end.

(** Big-endian encodings. *)
Definition be32 (x : Z) : list byte :=
  [ Zbyte (Z.shiftr x 24); Zbyte (Z.shiftr x 16);
    Zbyte (Z.shiftr x 8); Zbyte x ].
Definition be64 (x : Z) : list byte :=
  be32 (Z.shiftr x 32) ++ be32 x.

Fixpoint words (n : nat) (l : list byte) : list Z :=
  match n with
  | O => []
  | S n' =>
      match l with
      | b0 :: b1 :: b2 :: b3 :: l' =>
          (Z.shiftl (byteZ b0) 24 + Z.shiftl (byteZ b1) 16
           + Z.shiftl (byteZ b2) 8 + byteZ b3) :: words n' l'
      | _ => []
      end
  end.

(** Message schedule: [n] further words appended to [w]. *)
Fixpoint extend (n : nat) (w : list Z) : list Z :=
  match n with
  | O => w
  | S n' =>
      let t := length w in
      let x := add32 (add32 (ssig1 (nth (t - 2) w 0)) (nth (t - 7) w 0))
                     (add32 (ssig0 (nth (t - 15) w 0)) (nth (t - 16) w 0)) in
      extend n' (w ++ [x])
  end.

Definition round (s : regs) (kw : Z * Z) : regs :=
  let t1 := add32 (add32 (add32 (rh s) (bsig1 (re s)))
                         (add32 (Ch (re s) (rf s) (rg s)) (fst kw)))
                  (snd kw) in
  let t2 := add32 (bsig0 (ra s)) (Maj (ra s) (rb s) (rc s)) in
  Regs (add32 t1 t2) (ra s) (rb s) (rc s) (add32 (rd s) t1) (re s) (rf s) (rg s).

Definition block (h : regs) (chunk : list byte) : regs :=
  let w := extend 48 (words 16 chunk) in
  let s := fold_left round (combine K w) h in
  Regs (add32 (ra h) (ra s)) (add32 (rb h) (rb s))
       (add32 (rc h) (rc s)) (add32 (rd h) (rd s))
       (add32 (re h) (re s)) (add32 (rf h) (rf s))
       (add32 (rg h) (rg s)) (add32 (rh h) (rh s)).

Fixpoint blocks (n : nat) (h : regs) (l : list byte) : regs :=
  match n with
  | O => h
  | S n' => blocks n' (block h (firstn 64 l)) (skipn 64 l)
  end.

Definition pad (msg : list byte) : list byte :=
  let len := Z.of_nat (length msg) in
  msg ++ [x80] ++ repeat x00 (Z.to_nat ((55 - len) mod 64))
      ++ be64 (8 * len).

Definition output (h : regs) : list byte :=
  be32 (ra h) ++ be32 (rb h) ++ be32 (rc h) ++ be32 (rd h)
    ++ be32 (re h) ++ be32 (rf h) ++ be32 (rg h) ++ be32 (rh h).

Definition Sum256 (msg : list byte) : list byte :=
  let p := pad msg in
  output (blocks (Nat.div (length p) 64) init p).

(** [hash.Hash] as returned by [sha256.New]: [Write] appends, never
    fails; [Sum] appends the digest of everything written to [b]. *)
Record digest : Type := Digest { written : list byte }.
Definition New : digest := Digest [].
Definition Write (d : digest) (p : list byte) : digest :=
  Digest (written d ++ p).
Definition Sum (d : digest) (b : list byte) : list byte :=
  b ++ Sum256 (written d).

End SHA256.

Local Open Scope string_scope.

(** ** Go values shared by the packages below *)

(** [syscall.Errno] values this development distinguishes. *)
Inductive Errno : Type :=
  ENOENT | EACCES | EIO | EISDIR | ELOOP | EBADF.

(** The dynamic types behind Go's [error] interface that reach this
    package: [fmt.Errorf] without a wrapping verb gives a plain message,
    the [os] package a [*PathError], and [os/exec] an error of its own. *)
Inductive error : Type :=
| errorString (s : string)
| PathError (Op Path : string) (Err : Errno)
| ExecError (msg : string).

Global Instance Errno_eq_dec : EqDecision Errno.
Proof. solve_decision. Defined.
Global Instance error_eq_dec : EqDecision error.
Proof. solve_decision. Defined.

(** [string(b)] for a byte slice [b], which is also how the formatting
    verb for strings renders a byte slice: the bytes themselves. *)
Definition string_of_bytes (b : list byte) : string := string_of_list_byte b.

(** [bytes.Equal]. *)
Fixpoint bytes_Equal (a b : list byte) : bool :=
  match a, b with
  | [], [] => true
  | x :: a', y :: b' => Byte.eqb x y && bytes_Equal a' b'
  | _, _ => false
  end.

(** ** path/filepath (Unix) *)
Module filepath.

Definition Separator : ascii := "/"%char.
Definition IsPathSeparator (c : ascii) : bool := Ascii.eqb c Separator.

Fixpoint dropWhile {A} (p : A -> bool) (l : list A) : list A :=
  match l with
  | [] => []
  | x :: l' => if p x then dropWhile p l' else l
  end.

Fixpoint takeWhile {A} (p : A -> bool) (l : list A) : list A :=
  match l with
  | [] => []
  | x :: l' => if p x then x :: takeWhile p l' else []
  end.

(** [Base] returns the last element of [path]; trailing separators are
    removed first; the empty path gives ".", a path of separators only
    gives "/". *)
Definition Base (path : string) : string :=
  if String.eqb path "" then "."
  else
    let stripped := dropWhile IsPathSeparator (rev (list_ascii_of_string path)) in
    let last := rev (takeWhile (fun c => negb (IsPathSeparator c)) stripped) in
    match last with
    | [] => "/"
    | _ => string_of_list_ascii last
    end.

(** Components of a path, split at every separator. *)
Fixpoint split_go (cur : list ascii) (l : list ascii) : list string :=
  match l with
  | [] => [string_of_list_ascii (rev cur)]
  | c :: l' =>
      if IsPathSeparator c
      then string_of_list_ascii (rev cur) :: split_go [] l'
      else split_go (c :: cur) l'
  end.
Definition split (path : string) : list string :=
  split_go [] (list_ascii_of_string path).

Definition rooted (path : string) : bool :=
  match path with
  | String c _ => IsPathSeparator c
  | EmptyString => false
  end.

(** One step of [Clean] on the stack of kept components (last
    first): empty and "." elements vanish, ".." removes the element
    before it, is dropped at the root, and is kept otherwise. *)
Definition clean_step (root : bool) (stack : list string) (c : string)
  : list string :=
  if String.eqb c "" || String.eqb c "." then stack
  else if String.eqb c ".." then
    match stack with
    | top :: rest => if String.eqb top ".." then c :: stack else rest
    | [] => if root then [] else [c]
    end
  else c :: stack.

Fixpoint join_with (sep : string) (l : list string) : string :=
  match l with
  | [] => ""
  | [x] => x
  | x :: l' => x +:+ sep +:+ join_with sep l'
  end.

Definition Clean (path : string) : string :=
  let root := rooted path in
  let kept := rev (fold_left (clean_step root) (split path) []) in
  let out := (if root then "/" else "") +:+ join_with "/" kept in
  if String.eqb out "" then "." else out.

(** [Join] ignores empty elements, joins the rest with the separator
    and cleans the result; no non-empty element gives "". *)
Definition Join (elem : list string) : string :=
  match List.filter (fun e => negb (String.eqb e "")) elem with
  | [] => ""
  | es => Clean (join_with "/" es)
  end.

End filepath.

(** ** State threading *)

(** Go code runs against mutable state; an operation over state [S]
    returning [A] is a function [S -> A * S]. *)
Definition ST (S A : Type) : Type := S -> A * S.

Definition ret {S A} (a : A) : ST S A := fun s => (a, s).
Definition bind {S A B} (m : ST S A) (k : A -> ST S B) : ST S B :=
  fun s => let (a, s') := m s in k a s'.
Definition gets {S A} (f : S -> A) : ST S A := fun s => (f s, s).
Definition modify {S} (f : S -> S) : ST S unit := fun s => (tt, f s).

Notation "'do' x <- m ; k" := (bind m (fun x => k))
  (at level 10, x pattern, m at level 100, k at level 200,
   format "'[v' 'do'  x  <-  m ; '/' k ']'").
Notation "m ;; k" := (bind m (fun _ => k))
  (at level 100, k at level 200, right associativity).

(** ** The operating system

    Library calls that give either a value or an error return a sum;
    the functions of this package return Go's pairs.

    Files are looked up by their full path string.  A regular file has
    content, permission bits, a modification time and an inode number;
    [cond] says whether the device under it serves reads and closes. *)
Inductive health : Type :=
| Healthy
| ReadFault (after : nat)   (* at most [after] bytes are served, then EIO *)
| CloseFault.               (* reads succeed, close reports EIO *)

Record file : Type := File {
  data : list byte;
  perm : Z;
  cond : health;
  mtime : Z;
  ino : Z
}.

Inductive node : Type :=
| Regular (f : file)
| Directory
| Link (target : string).

(** An open descriptor: the name it was opened under, the entry that
    name led to, and the read offset. *)
Record descriptor : Type := Descriptor {
  d_name : string;
  d_target : string;
  d_off : nat
}.

(** System calls and process spawns, in the order they were made. *)
Inductive event : Type :=
| EvLstat (path : string)
| EvOpen (path : string)
| EvRead (fd : nat)
| EvClose (fd : nat)
| EvExec (name : string) (args : list string).

Record World : Type := mkWorld {
  fs : gmap string node;
  open_files : gmap nat descriptor;
  trace : list event
}.

Definition IO (A : Type) : Type := ST World A.

Definition log (e : event) : IO unit :=
  modify (fun w => mkWorld (fs w) (open_files w) (trace w ++ [e])).

Module os.

(** [os.FileMode] bits. *)
Definition ModeDir : Z := Z.shiftl 1 31.
Definition ModeSymlink : Z := Z.shiftl 1 27.
Definition ModePerm : Z := 511.   (* 0777 *)

Record FileInfo : Type := mkFileInfo {
  Name : string;
  Size : Z;
  Mode : Z;
  ModTime : Z
}.

Definition stat_of (path : string) (n : node) : FileInfo :=
  match n with
  | Regular f =>
      mkFileInfo (filepath.Base path) (Z.of_nat (length (data f)))
                 (Z.land (perm f) ModePerm) (mtime f)
  | Directory => mkFileInfo (filepath.Base path) 4096 (Z.lor ModeDir 493) 0
  | Link t =>
      mkFileInfo (filepath.Base path) (Z.of_nat (String.length t))
                 (Z.lor ModeSymlink ModePerm) 0
  end.

(** [os.Lstat]: describes the entry itself, a link is not followed. *)
Definition Lstat (path : string) : IO (FileInfo + error) :=
  log (EvLstat path) ;;
  do n <- gets (fun w => fs w !! path);
  match n with
  | Some n => ret (inl (stat_of path n))
  | None => ret (inr (PathError "lstat" path ENOENT))
  end.

(** Following links, at most [fuel] of them. *)
Fixpoint resolve (fuel : nat) (m : gmap string node) (path : string)
  : string + Errno :=
  match m !! path with
  | None => inr ENOENT
  | Some (Link t) =>
      match fuel with
      | O => inr ELOOP
      | S fuel' => resolve fuel' m t
      end
  | Some _ => inl path
  end.

Definition MAXSYMLINKS : nat := 40.

Definition readable (n : node) : bool :=
  match n with
  | Regular f => Z.testbit (perm f) 8
  | _ => true
  end.

(** The lowest descriptor number not in use. *)
Definition next_fd (t : gmap nat descriptor) : nat :=
  fresh (dom t : gset nat).

(** [os.Open]: opens for reading, following links; a directory can be
    opened too.  The result is the descriptor number. *)
Definition Open (path : string) : IO (nat + error) :=
  log (EvOpen path) ;;
  do m <- gets fs;
  match resolve MAXSYMLINKS m path with
  | inr e => ret (inr (PathError "open" path e))
  | inl target =>
      match m !! target with
      | Some n =>
          if readable n then
            do fd <- gets (fun w => next_fd (open_files w));
            modify (fun w =>
              mkWorld (fs w)
                      (<[fd := Descriptor path target 0]> (open_files w))
                      (trace w)) ;;
            ret (inl fd)
          else ret (inr (PathError "open" path EACCES))
      | None => ret (inr (PathError "open" path ENOENT))
      end
  end.

(** [Close] on an open file: the descriptor is given back even when
    the close reports a failure; closing twice is an error. *)
Definition Close (fd : nat) : IO (option error) :=
  log (EvClose fd) ;;
  do d <- gets (fun w => open_files w !! fd);
  match d with
  | None => ret (Some (PathError "close" "" EBADF))
  | Some d =>
      modify (fun w =>
        mkWorld (fs w) (delete fd (open_files w)) (trace w)) ;;
      do n <- gets (fun w => fs w !! d_target d);
      match n with
      | Some (Regular f) =>
          match cond f with
          | CloseFault => ret (Some (PathError "close" (d_name d) EIO))
          | _ => ret None
          end
      | _ => ret None
      end
  end.

End os.

Module io.

(** [io.Copy dst src] for a hash [dst] and an open file [src]: reads
    [src] from its offset until end of file or the first read error and
    writes what was read to [dst]; returns the updated hash, the number
    of bytes copied and the error.  Writing to a hash does not fail. *)
Definition Copy (dst : SHA256.digest) (src : nat)
  : IO (SHA256.digest * Z * option error) :=
  log (EvRead src) ;;
  do d <- gets (fun w => open_files w !! src);
  match d with
  | None => ret (dst, 0%Z, Some (PathError "read" "" EBADF))
  | Some d =>
      do n <- gets (fun w => fs w !! d_target d);
      match n with
      | Some (Regular f) =>
          let rest := skipn (d_off d) (data f) in
          let served :=
            match cond f with
            | ReadFault after => firstn (after - d_off d) rest
            | _ => rest
            end in
          modify (fun w =>
            mkWorld (fs w)
                    (<[src := Descriptor (d_name d) (d_target d)
                                  (d_off d + length served)]>
                       (open_files w))
                    (trace w)) ;;
          ret (SHA256.Write dst served, Z.of_nat (length served),
               match cond f with
               | ReadFault _ => Some (PathError "read" (d_name d) EIO)
               | _ => None
               end)
      | Some Directory =>
          ret (dst, 0%Z, Some (PathError "read" (d_name d) EISDIR))
      | _ => ret (dst, 0%Z, Some (PathError "read" (d_name d) EIO))
      end
  end.

End io.

(** ** Package omreport: the trust gate (omreport.go) *)

Definition DefaultOMCLIProxyDir : string := "/opt/dell/srvadmin/sbin".
Definition DefaultOMCLIProxyBinaryName : string := "omcliproxy".
Definition DefaultOMReportCommandName : string := "omreport".

Record OMReport : Type := mkOMReport {
  omCLIProxyPath : string;
  enhancedSecurityMode : bool;
  sha256Checksum : list byte
}.

Record Config : Type := mkConfig {
  OMCLIProxyPath : string;
  EnhancedSecurityMode : bool
}.

(** A method with a pointer receiver runs against the receiver and the
    world. *)
Definition Method (A : Type) : Type := ST (OMReport * World) A.

Definition lift {A} (m : IO A) : Method A :=
  fun s => let (a, w') := m (snd s) in (a, (fst s, w')).
Definition self {A} (field : OMReport -> A) : Method A :=
  gets (fun s => field (fst s)).
Definition set_omCLIProxyPath (v : string) : Method unit :=
  modify (fun s =>
    (mkOMReport v (enhancedSecurityMode (fst s)) (sha256Checksum (fst s)), snd s)).
Definition set_sha256Checksum (v : list byte) : Method unit :=
  modify (fun s =>
    (mkOMReport (omCLIProxyPath (fst s)) (enhancedSecurityMode (fst s)) v, snd s)).

(** Runs [m] on a freshly allocated receiver. *)
Definition alloc {A} (om : OMReport) (m : Method A) : IO A :=
  fun w => let (a, s) := m (om, w) in (a, snd s).

(** [fileSha256] returns the sha256 checksum of the specified file. *)
Definition fileSha256 (path : string) : IO (list byte * option error) :=
  do r <- os.Open path;
  match r with
  | inr err => ret ([], Some err)
  | inl f =>
      let h := SHA256.New in
      do (h, _, err) <- io.Copy h f;
      match err with
      | Some err => ret ([], Some err)
      | None =>
          do err <- os.Close f;
          match err with
          | Some err => ret ([], Some err)
          | None => ret (SHA256.Sum h [], None)
          end
      end
  end.

(** [allowedOMCLIProxyBinary]: the binary name must be 'omcliproxy' and
    the path must not be a symlink. *)
Definition allowedOMCLIProxyBinary : Method (option error) :=
  do path <- self omCLIProxyPath;
  let name := filepath.Base path in
  if negb (String.eqb name DefaultOMCLIProxyBinaryName) then
    ret (Some (errorString
                 ("expected binary name to be " +:+ DefaultOMCLIProxyBinaryName)))
  else
    do r <- lift (os.Lstat path);
    match r with
    | inr err => ret (Some err)
    | inl fi =>
        if negb (Z.eqb (Z.land (os.Mode fi) os.ModeSymlink) 0) then
          ret (Some (errorString ("expected " +:+ path +:+ " to not be a symlink")))
        else ret None
    end.

(** [SuspiciousOMCLIProxyBinary]: a non-nil error if the checksum of the
    binary differs from the one taken by [NewOMReporter], or if it
    cannot be calculated. *)
Definition SuspiciousOMCLIProxyBinary : Method (option error) :=
  do path <- self omCLIProxyPath;
  do (currentChecksum, err) <- lift (fileSha256 path);
  match err with
  | Some err => ret (Some err)
  | None =>
      do original <- self sha256Checksum;
      if negb (bytes_Equal currentChecksum original) then
        ret (Some (errorString
               ("current binary checksum " +:+ string_of_bytes currentChecksum
                +:+ " does not match the original checksum "
                +:+ string_of_bytes original
                +:+ " which is very suspicious")))
      else ret None
  end.

(** [NewOMReporter] returns the client, or an error if the path to
    omcliproxy is not allowed or its checksum cannot be taken. *)
Definition NewOMReporter (cfg : Config) : IO (option OMReport * option error) :=
  alloc (mkOMReport (OMCLIProxyPath cfg) (EnhancedSecurityMode cfg) [])
    (do err <- allowedOMCLIProxyBinary;
     match err with
     | Some err => ret (None, Some err)
     | None =>
         do (checksum, err) <- lift (fileSha256 (OMCLIProxyPath cfg));
         match err with
         | Some err => ret (None, Some err)
         | None =>
             set_sha256Checksum checksum ;;
             do om <- gets fst;
             ret (Some om, None)
         end
     end).

(** [xml.Unmarshal data &out] for an output struct [T]; [zero] is the
    struct's zero value. *)
Class Unmarshaler (T : Type) : Type := {
  zero : T;
  Unmarshal : list byte -> T -> T * option error
}.

Section Reports.

(** What the program started by [exec.Command name args] does: its
    combined output, its exit error, and what it leaves on disk. *)
Variable program :
  string -> list string -> gmap string node ->
  (list byte * option error) * gmap string node.

(** [exec.Command(name, args...).CombinedOutput()]. *)
Definition CombinedOutput (name : string) (args : list string)
  : IO (list byte * option error) :=
  log (EvExec name args) ;;
  do m <- gets fs;
  let r := program name args m in
  modify (fun w => mkWorld (snd r) (open_files w) (trace w)) ;;
  ret (fst r).

(** [Report] runs the specified omreport command with provided
    arguments. *)
Definition Report (args : list string) : Method (list byte * option error) :=
  do path <- self omCLIProxyPath;
  (if String.eqb path "" then
     set_omCLIProxyPath
       (filepath.Join [DefaultOMCLIProxyDir; DefaultOMCLIProxyBinaryName])
   else ret tt) ;;
  do enhanced <- self enhancedSecurityMode;
  do err <- (if enhanced then SuspiciousOMCLIProxyBinary else ret None);
  match err with
  | Some err => ret ([], Some err)
  | None =>
      let args := ([DefaultOMReportCommandName] ++ args)%list in
      let args := (args ++ ["-fmt"; "xml"])%list in
      do path <- self omCLIProxyPath;
      lift (CombinedOutput path args)
  end.

(** The body shared by every report method: run [Report], then decode
    its output into the method's output struct. *)
Definition report_into (T : Type) `{Unmarshaler T} (args : list string)
  : Method (option T * option error) :=
  do (data, err) <- Report args;
  match err with
  | Some err => ret (None, Some err)
  | None =>
      let out := zero in
      let '(out, err) := Unmarshal data out in
      match err with
      | Some err => ret (None, Some err)
      | None => ret (Some out, None)
      end
  end.

(** The report methods; [T] is the method's output struct. *)
Section Methods.
Context (T : Type) `{Unmarshaler T}.

Definition About := report_into T ["about"].
Definition Chassis := report_into T ["chassis"].
Definition ChassisBatteries := report_into T ["chassis"; "batteries"].
Definition ChassisFans := report_into T ["chassis"; "fans"].
Definition ChassisInfo := report_into T ["chassis"; "info"].
Definition ChassisProcessors := report_into T ["chassis"; "processors"].
Definition ChassisMemory := report_into T ["chassis"; "memory"].
Definition ChassisTemps := report_into T ["chassis"; "temps"].
Definition ChassisPowerMonitoring := report_into T ["chassis"; "pwrmonitoring"].
Definition ChassisPowerSupplies := report_into T ["chassis"; "pwrsupplies"].
Definition StorageController := report_into T ["storage"; "controller"].
Definition StorageEnclosure := report_into T ["storage"; "enclosure"].
Definition StorageVDisk := report_into T ["storage"; "vdisk"].
Definition StoragePDisk (cid : Z) :=
  report_into T ["storage"; "pdisk"; "controller=" +:+ pretty cid].
End Methods.

End Reports.

(** ** Package omreport: the code tables (types.go) *)

(** The conversion [string(v)] of an integer [v]: the UTF-8 encoding of
    the code point [v], and of U+FFFD when [v] is not a valid one. *)
Module utf8.

Local Open Scope Z_scope.

Definition RuneError : Z := 0xFFFD.
Definition MaxRune : Z := 0x10FFFF.
Definition surrogateMin : Z := 0xD800.
Definition surrogateMax : Z := 0xDFFF.
Definition rune1Max : Z := 0x7F.
Definition rune2Max : Z := 0x7FF.
Definition rune3Max : Z := 0xFFFF.
Definition tx : Z := 0x80.
Definition t2 : Z := 0xC0.
Definition t3 : Z := 0xE0.
Definition t4 : Z := 0xF0.
Definition maskx : Z := 0x3F.

Definition enc3 (r : Z) : list byte :=
  [ Zbyte (Z.lor t3 (Z.shiftr r 12));
    Zbyte (Z.lor tx (Z.land (Z.shiftr r 6) maskx));
    Zbyte (Z.lor tx (Z.land r maskx)) ].

Definition encoderune (r : Z) : list byte :=
  let i := r mod 2 ^ 32 in
  if i <=? rune1Max then [Zbyte r]
  else if i <=? rune2Max then
    [ Zbyte (Z.lor t2 (Z.shiftr r 6)); Zbyte (Z.lor tx (Z.land r maskx)) ]
  else if (MaxRune <? i) || ((surrogateMin <=? i) && (i <=? surrogateMax)) then
    enc3 RuneError
  else if i <=? rune3Max then enc3 r
  else
    [ Zbyte (Z.lor t4 (Z.shiftr r 18));
      Zbyte (Z.lor tx (Z.land (Z.shiftr r 12) maskx));
      Zbyte (Z.lor tx (Z.land (Z.shiftr r 6) maskx));
      Zbyte (Z.lor tx (Z.land r maskx)) ].

Definition intstring (v : Z) : string :=
  let v := if (- 2 ^ 31 <=? v) && (v <? 2 ^ 31) then v else RuneError in
  string_of_bytes (encoderune v).

End utf8.

Definition AttrLogicalConnector : Z := Z.shiftl 1 6.
Definition AttrGlobalHS : Z := Z.shiftl 1 7.
Definition AttrDedicatedHS : Z := Z.shiftl 1 8.
Definition AttrNonRAID : Z := Z.shiftl 1 9.
Definition AttrFailurePredicted : Z := Z.shiftl 1 11.

Definition Status : Type := Z.
Definition StatusOK : Status := 2.
Definition StatusNonCritical : Status := 3.
Definition StatusCritical : Status := 4.

Definition State : Type := Z.
Definition StateReady : State := 1.
Definition StateFailed : State := 2.
Definition StateOnline : State := 4.
Definition StateOffline : State := 8.
Definition StateDegraded : State := 32.
Definition StateNonRAID : State := 4096.
Definition StateReplacing : State := 2097152.
Definition StateRebuilding : State := 8388608.
Definition StateBackgroundInitialization : State := 34359738368.
Definition StateForeign : State := 274877906944.
Definition StateClear : State := 549755813888.
Definition StateDegradedRedundancy : State := 9007199254740992.

Definition Layout : Type := Z.
Definition LayoutRAID0 : Layout := 2.
Definition LayoutRAID1 : Layout := 4.
Definition LayoutRAID5 : Layout := 64.
Definition LayoutRAID6 : Layout := 128.
Definition LayoutRAID60 : Layout := 262144.

Definition BusProtocol : Type := Z.
Definition BusProtocolSCSI : BusProtocol := 1.
Definition BusProtocolIDE : BusProtocol := 2.
Definition BusProtocolSATA : BusProtocol := 7.
Definition BusProtocolSAS : BusProtocol := 8.
Definition BusProtocolPCIe : BusProtocol := 9.

Definition NaN : Z := - Z.shiftl 1 31.

(** A Go [switch] over constant cases: the first matching case wins. *)
Fixpoint switch (v : Z) (cases : list (Z * string)) (default : string) : string :=
  match cases with
  | [] => default
  | (c, r) :: cases' => if (v =? c)%Z then r else switch v cases' default
  end.

Definition Status_String (s : Status) : string :=
  switch s
    [ (StatusCritical, "Critical");
      (StatusOK, "OK");
      (StatusNonCritical, "Non-critical") ]
    ("Unknown status code " +:+ utf8.intstring s).

Definition State_String (s : State) : string :=
  switch s
    [ (StateOnline, "Online");
      (StateBackgroundInitialization, "Background Initialization");
      (StateClear, "Clear");
      (StateDegraded, "Degraded");
      (StateDegradedRedundancy, "Degraded Redundancy");
      (StateFailed, "Failed");
      (StateForeign, "Foreign");
      (StateNonRAID, "Non-RAID");
      (StateOffline, "Offline");
      (StateReady, "Ready");
      (StateRebuilding, "Rebuilding");
      (StateReplacing, "Replacing") ]
    ("Unknown state code " +:+ utf8.intstring s).

Definition BusProtocol_String (b : BusProtocol) : string :=
  switch b
    [ (BusProtocolIDE, "IDE");
      (BusProtocolPCIe, "PCIe");
      (BusProtocolSAS, "SAS");
      (BusProtocolSATA, "SATA");
      (BusProtocolSCSI, "SCSI") ]
    ("Unknown bus protocol code " +:+ utf8.intstring b).

Definition Layout_String (l : Layout) : string :=
  switch l
    [ (LayoutRAID0, "RAID-0");
      (LayoutRAID1, "RAID-1");
      (LayoutRAID5, "RAID-5");
      (LayoutRAID6, "RAID-6");
      (LayoutRAID60, "RAID-60") ]
    ("Unknown layout code " +:+ utf8.intstring l).

(** ** A client's lifetime *)

Section Lifetime.

Variable program :
  string -> list string -> gmap string node ->
  (list byte * option error) * gmap string node.
Context (T : Type) `{Unmarshaler T}.

(** The operations a caller has on a client. *)
Inductive operation : Type :=
| OpReport (args : list string)
| OpSuspiciousOMCLIProxyBinary
| OpAbout
| OpChassis
| OpChassisBatteries
| OpChassisFans
| OpChassisInfo
| OpChassisProcessors
| OpChassisMemory
| OpChassisTemps
| OpChassisPowerMonitoring
| OpChassisPowerSupplies
| OpStorageController
| OpStorageEnclosure
| OpStorageVDisk
| OpStoragePDisk (cid : Z).

Definition forget {A} (m : Method A) : Method unit := m ;; ret tt.

Definition perform (o : operation) : Method unit :=
  match o with
  | OpReport args => forget (Report program args)
  | OpSuspiciousOMCLIProxyBinary => forget SuspiciousOMCLIProxyBinary
  | OpAbout => forget (About program T)
  | OpChassis => forget (Chassis program T)
  | OpChassisBatteries => forget (ChassisBatteries program T)
  | OpChassisFans => forget (ChassisFans program T)
  | OpChassisInfo => forget (ChassisInfo program T)
  | OpChassisProcessors => forget (ChassisProcessors program T)
  | OpChassisMemory => forget (ChassisMemory program T)
  | OpChassisTemps => forget (ChassisTemps program T)
  | OpChassisPowerMonitoring => forget (ChassisPowerMonitoring program T)
  | OpChassisPowerSupplies => forget (ChassisPowerSupplies program T)
  | OpStorageController => forget (StorageController program T)
  | OpStorageEnclosure => forget (StorageEnclosure program T)
  | OpStorageVDisk => forget (StorageVDisk program T)
  | OpStoragePDisk cid => forget (StoragePDisk program T cid)
  end.

(** What happens during a client's lifetime: the caller uses the
    client, and other processes change files in between. *)
Inductive step : Type :=
| Call (o : operation)
| Elsewhere (change : gmap string node -> gmap string node).

Definition take_step (s : step) : Method unit :=
  match s with
  | Call o => perform o
  | Elsewhere change =>
      modify (fun s =>
        (fst s, mkWorld (change (fs (snd s))) (open_files (snd s)) (trace (snd s))))
  end.

Fixpoint lifetime (steps : list step) : Method unit :=
  match steps with
  | [] => ret tt
  | s :: steps' => take_step s ;; lifetime steps'
  end.

(** [n] tamper checks in a row, with their verdicts. *)
Fixpoint checks (n : nat) : Method (list (option error)) :=
  match n with
  | O => ret []
  | S n' =>
      do v <- SuspiciousOMCLIProxyBinary;
      do vs <- checks n';
      ret (v :: vs)
  end.

End Lifetime.

(** * Vocabulary of the properties *)

(** ** What one call of [fileSha256] does *)

(** The four ways a call can end. *)
Inductive outcome : Type :=
| OpenFails (e : Errno)
| ReadFails (target : string) (e : Errno) (served : nat)
| CloseFails (target : string) (size : nat)
| Hashed (target : string) (size : nat) (sum : list byte).

Definition classify (m : gmap string node) (path : string) : outcome :=
  match os.resolve os.MAXSYMLINKS m path with
  | inr e => OpenFails e
  | inl target =>
      match m !! target with
      | None => OpenFails ENOENT
      | Some n =>
          if os.readable n then
            match n with
            | Regular f =>
                match cond f with
                | Healthy =>
                    Hashed target (length (data f)) (SHA256.Sum256 (data f))
                | ReadFault after =>
                    ReadFails target EIO (length (firstn after (data f)))
                | CloseFault => CloseFails target (length (data f))
                end
            | Directory => ReadFails target EISDIR 0
            | Link _ => ReadFails target EIO 0
            end
          else OpenFails EACCES
      end
  end.

Definition returned (path : string) (o : outcome) : list byte * option error :=
  match o with
  | OpenFails e => ([], Some (PathError "open" path e))
  | ReadFails _ e _ => ([], Some (PathError "read" path e))
  | CloseFails _ _ => ([], Some (PathError "close" path EIO))
  | Hashed _ _ sum => (sum, None)
  end.

Definition descriptors_after (path : string) (t : gmap nat descriptor)
    (o : outcome)
  : gmap nat descriptor :=
  match o with
  | ReadFails target _ served =>
      <[os.next_fd t := Descriptor path target served]> t
  | _ => t
  end.

Definition syscalls (path : string) (fd : nat) (o : outcome) : list event :=
  match o with
  | OpenFails _ => [EvOpen path]
  | ReadFails _ _ _ => [EvOpen path; EvRead fd]
  | _ => [EvOpen path; EvRead fd; EvClose fd]
  end.

(** ** What the gate's operations do *)

Definition name_error : error :=
  errorString ("expected binary name to be " +:+ DefaultOMCLIProxyBinaryName).
Definition symlink_error (path : string) : error :=
  errorString ("expected " +:+ path +:+ " to not be a symlink").
Definition mismatch_error (current original : list byte) : error :=
  errorString
    ("current binary checksum " +:+ string_of_bytes current
     +:+ " does not match the original checksum "
     +:+ string_of_bytes original
     +:+ " which is very suspicious").

(** The verdict of [allowedOMCLIProxyBinary], read off the files. *)
Definition admission (m : gmap string node) (path : string) : option error :=
  if negb (String.eqb (filepath.Base path) DefaultOMCLIProxyBinaryName) then
    Some name_error
  else
    match m !! path with
    | None => Some (PathError "lstat" path ENOENT)
    | Some (Link _) => Some (symlink_error path)
    | Some _ => None
    end.

Definition named_omcliproxy (path : string) : bool :=
  String.eqb (filepath.Base path) DefaultOMCLIProxyBinaryName.

(** The verdict of [SuspiciousOMCLIProxyBinary] given what
    [fileSha256] returned. *)
Definition compare (original : list byte) (r : list byte * option error)
  : option error :=
  match r with
  | (_, Some err) => Some err
  | (current, None) =>
      if bytes_Equal current original then None
      else Some (mismatch_error current original)
  end.

Definition command_line (args : list string) : list string :=
  (DefaultOMReportCommandName :: args ++ ["-fmt"; "xml"])%list.

(** ** The code tables *)

Definition Status_codes : list Z := [StatusCritical; StatusOK; StatusNonCritical].
Definition State_codes : list Z :=
  [ StateOnline; StateBackgroundInitialization; StateClear; StateDegraded;
    StateDegradedRedundancy; StateFailed; StateForeign; StateNonRAID;
    StateOffline; StateReady; StateRebuilding; StateReplacing ].
Definition BusProtocol_codes : list Z :=
  [ BusProtocolIDE; BusProtocolPCIe; BusProtocolSAS; BusProtocolSATA;
    BusProtocolSCSI ].
Definition Layout_codes : list Z :=
  [ LayoutRAID0; LayoutRAID1; LayoutRAID5; LayoutRAID6; LayoutRAID60 ].

(** The character with code [c], as a one-character string. *)
Definition character (c : Z) : string :=
  String (ascii_of_N (Z.to_N c)) EmptyString.

(** What a decimal rendering of the code would give. *)
Definition decimal (c : Z) : string := pretty c.

Definition renders_as_character (n : nat) : bool :=
  String.eqb (utf8.intstring (Z.of_nat n)) (character (Z.of_nat n))
  && negb (String.eqb (utf8.intstring (Z.of_nat n)) (decimal (Z.of_nat n))).

(** ** Byte strings as numbers *)

(** Byte strings as little-endian numbers. *)
Fixpoint le_value (l : list byte) : N :=
  match l with
  | [] => 0
  | b :: l' => Byte.to_N b + 256 * le_value l'
  end.

Definition low_byte (n : N) : byte :=
  match Byte.of_N (n mod 256) with
  | Some b => b
  | None => x00
  end.

Fixpoint le_bytes (k : nat) (n : N) : list byte :=
  match k with
  | O => []
  | S k' => low_byte n :: le_bytes k' (n / 256)
  end.

(** ** Worlds used as examples *)

Definition installed : string := "/opt/dell/srvadmin/sbin/omcliproxy".

Definition binary (content : string) (stamp inode : Z) : node :=
  Regular (File (list_byte_of_string content) 493 Healthy stamp inode).

Definition boot (m : gmap string node) : World := mkWorld m ∅ [].

Definition disk_foo : gmap string node := {[ installed := binary "foo" 0 7 ]}.
Definition disk_bar : gmap string node := {[ installed := binary "bar" 5 7 ]}.
Definition disk_foo_again : gmap string node := {[ installed := binary "foo" 9 8 ]}.
Definition disk_dir : gmap string node := {[ installed := Directory ]}.
Definition disk_link : gmap string node :=
  {[ installed := Link "/tmp/omcliproxy"; "/tmp/omcliproxy" := binary "foo" 0 7 ]}.

Definition sha_foo : list byte := SHA256.Sum256 (list_byte_of_string "foo").
Definition sha_bar : list byte := SHA256.Sum256 (list_byte_of_string "bar").

(** A program that prints nothing and touches nothing, and an output
    struct with nothing to decode. *)
Definition quiet : string -> list string -> gmap string node ->
    (list byte * option error) * gmap string node :=
  fun _ _ m => (([], None), m).

Global Instance unit_Unmarshaler : Unmarshaler unit :=
  {| zero := tt; Unmarshal := fun _ out => (out, None) |}.

Definition client_foo (enhanced : bool) : OMReport :=
  mkOMReport installed enhanced sha_foo.
Definition after_construction : World :=
  mkWorld disk_foo ∅ [EvLstat installed; EvOpen installed; EvRead 0; EvClose 0].

Definition disk_of (content : list byte) (stamp inode : Z) : gmap string node :=
  {[ installed := Regular (File content 493 Healthy stamp inode) ]}.

(** * Further code: physical disks *)

(** ** strconv *)

(** [strconv.ParseUint] and [strconv.ParseInt] for an explicit base
    between 2 and 36, which is how this package calls them.  (Base 0,
    where the base is taken from the prefix of the string, is outside
    this model and is answered like any other base out of range.) *)
Module strconv.

Local Open Scope Z_scope.

Inductive Err : Type := ErrSyntax | ErrRange | ErrBase | ErrBitSize.

(** [*NumError]: the failing function, the input, and the reason. *)
Record NumError : Type := mkNumError {
  Func : string;
  Num : string;
  Reason : Err
}.

Definition code (c : ascii) : Z := Z.of_N (N_of_ascii c).

(** [lower c] is [c | ('x' - 'X')]. *)
Definition lower (c : Z) : Z := Z.lor c 32.

(** The value of a digit character, for any base. *)
Definition digit (c : ascii) : option Z :=
  let c := code c in
  if (48 <=? c) && (c <=? 57) then Some (c - 48)
  else if (97 <=? lower c) && (lower c <=? 122) then Some (lower c - 97 + 10)
  else None.

Definition maxUint64 : Z := 2 ^ 64 - 1.

(** The loop of [ParseUint] over the characters, with the value [n]
    read so far.  It returns at the first character that is not a digit
    of the base, and at the first digit that makes the value overflow. *)
Fixpoint parse_digits (base cutoff maxVal : Z) (s : list ascii) (n : Z)
  : Z * option Err :=
  match s with
  | [] => (n, None)
  | c :: s' =>
      match digit c with
      | None => (0, Some ErrSyntax)
      | Some d =>
          if d >=? base then (0, Some ErrSyntax)
          else if n >=? cutoff then (maxVal, Some ErrRange)
          else
            let n := (n * base) mod 2 ^ 64 in
            let n1 := (n + d) mod 2 ^ 64 in
            if (n1 <? n) || (n1 >? maxVal) then (maxVal, Some ErrRange)
            else parse_digits base cutoff maxVal s' n1
      end
  end.

Definition ParseUint (s : string) (base bitSize : Z) : Z * option NumError :=
  if String.eqb s "" then (0, Some (mkNumError "ParseUint" s ErrSyntax))
  else if negb ((2 <=? base) && (base <=? 36)) then
    (0, Some (mkNumError "ParseUint" s ErrBase))
  else if negb ((1 <=? bitSize) && (bitSize <=? 64)) then
    (0, Some (mkNumError "ParseUint" s ErrBitSize))
  else
    let cutoff := maxUint64 / base + 1 in
    let maxVal := 2 ^ bitSize - 1 in
    match parse_digits base cutoff maxVal (list_ascii_of_string s) 0 with
    | (n, Some e) => (n, Some (mkNumError "ParseUint" s e))
    | (n, None) => (n, None)
    end.

(** [int64(z)]: the value of the low 64 bits read as a signed number. *)
Definition int64 (z : Z) : Z := (z + 2 ^ 63) mod 2 ^ 64 - 2 ^ 63.

Definition ParseInt (s : string) (base bitSize : Z) : Z * option NumError :=
  match s with
  | EmptyString => (0, Some (mkNumError "ParseInt" s ErrSyntax))
  | String c rest =>
      let neg := Ascii.eqb c "-" in
      let body := if Ascii.eqb c "+" || Ascii.eqb c "-" then rest else s in
      match ParseUint body base bitSize with
      | (un, Some {| Reason := ErrRange |}) | (un, None) =>
          let cutoff := 2 ^ (bitSize - 1) in
          if negb neg && (un >=? cutoff) then
            (int64 (cutoff - 1), Some (mkNumError "ParseInt" s ErrRange))
          else if neg && (un >? cutoff) then
            (int64 (- int64 cutoff), Some (mkNumError "ParseInt" s ErrRange))
          else
            let n := int64 un in
            (if neg then int64 (- n) else n, None)
      | (_, Some e) => (0, Some (mkNumError "ParseInt" s (Reason e)))
      end
  end.

End strconv.

(** ** Package omreport: physical disks (types.go, omreport.go) *)

(** [PDisk] models a physical disk described by omreport. *)
Record PDisk : Type := mkPDisk {
  PDisk_AttributesMask : string;
  PDisk_BusProtocol : BusProtocol;
  PDisk_ID : Z;
  PDisk_ControllerID : Z;
  PDisk_EnclosureID : Z;
  PDisk_PartNo : string;
  PDisk_ProductID : string;
  PDisk_SerialNo : string;
  PDisk_SlotNo : Z;
  PDisk_Status : Status;
  PDisk_State : State;
  PDisk_Vendor : string
}.

(** [FailurePredicted] returns true if a physical disk is in a failure
    predicted state, and an error if the attribute cannot be
    determined. *)
Definition FailurePredicted (p : PDisk) : bool * option strconv.NumError :=
  let (attr, err) := strconv.ParseInt (PDisk_AttributesMask p) 2 64 in
  ((Z.land attr AttrFailurePredicted >? 0)%Z, err).

(** [GlobalHotSpare] returns true if a physical disk is a global hot
    spare. *)
Definition GlobalHotSpare (p : PDisk) : bool * option strconv.NumError :=
  let (attr, err) := strconv.ParseInt (PDisk_AttributesMask p) 2 64 in
  ((Z.land attr AttrGlobalHS >? 0)%Z, err).

(** [DedicatedHotSpare] returns true if a physical disk is a dedicated
    hot spare. *)
Definition DedicatedHotSpare (p : PDisk) : bool * option strconv.NumError :=
  let (attr, err) := strconv.ParseInt (PDisk_AttributesMask p) 2 64 in
  ((Z.land attr AttrDedicatedHS >? 0)%Z, err).

(** A mask written as binary digits, most significant first, and the
    number it spells. *)
Definition bit_char (b : bool) : ascii := if b then "1"%char else "0"%char.
Definition binary_mask (bits : list bool) : string :=
  string_of_list_ascii (map bit_char bits).
Definition binary_value (bits : list bool) : Z :=
  fold_left (fun n b => 2 * n + Z.b2z b)%Z bits 0%Z.

Definition disk (mask : string) : PDisk :=
  mkPDisk mask BusProtocolSAS 0 0 0 "" "" "" 0 StatusOK StateOnline "".

(** A mask that is damaged: empty, or with a character that is no
    binary digit and no sign after digits that fit 64 bits. *)
Definition damaged (mask : string) : Prop :=
  mask = ""
  \/ exists pre c rest,
       mask = binary_mask pre +:+ String c rest
       /\ (binary_value pre < 2 ^ 64)%Z
       /\ c <> "0"%char /\ c <> "1"%char /\ c <> "+"%char /\ c <> "-"%char.

(** ** Further vocabulary *)

(** Whether an event is the start of a program. *)
Definition is_exec (e : event) : bool :=
  match e with
  | EvExec _ _ => true
  | _ => false
  end.

(** The programs started so far. *)
Definition spawned (w : World) : list event := List.filter is_exec (trace w).

(** The bytes of U+FFFD, the replacement character. *)
Definition replacement : string := string_of_bytes [xef; xbf; xbd].

(** A code that is no Unicode code point. *)
Definition not_a_code_point (c : Z) : Prop :=
  (c < 0 \/ 0x10FFFF < c \/ 0xD800 <= c <= 0xDFFF)%Z.

(** A program that prints a report and exits with status 1. *)
Definition failing : string -> list string -> gmap string node ->
    (list byte * option error) * gmap string node :=
  fun _ _ m => ((list_byte_of_string "<OMA/>", Some (ExecError "exit status 1")), m).

(** Masks and clients used as examples. *)
Definition mask_bits : list bool :=
  [true; false; false; false; true; false; false; false; false; false; false; false].
Definition all_ones : list bool := repeat true 64.
Definition unbuilt_client : OMReport := mkOMReport "" false [].

(** * Properties *)

(** ** The digest is SHA-256 *)

(** The test vectors of the standard, and the digest of "foo". *)
Example Sum256_empty :
  map byteZ (SHA256.Sum256 []) =
  [ 0xe3; 0xb0; 0xc4; 0x42; 0x98; 0xfc; 0x1c; 0x14; 0x9a; 0xfb; 0xf4; 0xc8;
    0x99; 0x6f; 0xb9; 0x24; 0x27; 0xae; 0x41; 0xe4; 0x64; 0x9b; 0x93; 0x4c;
    0xa4; 0x95; 0x99; 0x1b; 0x78; 0x52; 0xb8; 0x55 ]%Z.
Proof. vm_compute. reflexivity. Qed.

Example Sum256_abc :
  map byteZ (SHA256.Sum256 (list_byte_of_string "abc")) =
  [ 0xba; 0x78; 0x16; 0xbf; 0x8f; 0x01; 0xcf; 0xea; 0x41; 0x41; 0x40; 0xde;
    0x5d; 0xae; 0x22; 0x23; 0xb0; 0x03; 0x61; 0xa3; 0x96; 0x17; 0x7a; 0x9c;
    0xb4; 0x10; 0xff; 0x61; 0xf2; 0x00; 0x15; 0xad ]%Z.
Proof. vm_compute. reflexivity. Qed.

Example Sum256_two_blocks :
  map byteZ (SHA256.Sum256 (list_byte_of_string
    "abcdbcdecdefdefgefghfghighijhijkijkljklmklmnlmnomnopnopq")) =
  [ 0x24; 0x8d; 0x6a; 0x61; 0xd2; 0x06; 0x38; 0xb8; 0xe5; 0xc0; 0x26; 0x93;
    0x0c; 0x3e; 0x60; 0x39; 0xa3; 0x3c; 0xe4; 0x59; 0x64; 0xff; 0x21; 0x67;
    0xf6; 0xec; 0xed; 0xd4; 0x19; 0xdb; 0x06; 0xc1 ]%Z.
Proof. vm_compute. reflexivity. Qed.

Example Sum256_foo :
  map byteZ sha_foo =
  [ 0x2c; 0x26; 0xb4; 0x6b; 0x68; 0xff; 0xc6; 0x8f; 0xf9; 0x9b; 0x45; 0x3c;
    0x1d; 0x30; 0x41; 0x34; 0x13; 0x42; 0x2d; 0x70; 0x64; 0x83; 0xbf; 0xa0;
    0xf9; 0x8a; 0x5e; 0x88; 0x62; 0x66; 0xe7; 0xae ]%Z.
Proof. vm_compute. reflexivity. Qed.

(** [filepath.Base] and [filepath.Join] on the paths of this package. *)
Example Base_examples :
  filepath.Base "/opt/dell/srvadmin/sbin/omcliproxy" = "omcliproxy"
  /\ filepath.Base "testdata/maliciousproxylink" = "maliciousproxylink"
  /\ filepath.Base "omcliproxy//" = "omcliproxy"
  /\ filepath.Base "" = "."
  /\ filepath.Base "//" = "/"
  /\ filepath.Join [DefaultOMCLIProxyDir; DefaultOMCLIProxyBinaryName] = installed.
Proof. vm_compute. repeat split; reflexivity. Qed.

Arguments SHA256.Sum256 : simpl never.

Ltac run_st :=
  cbv beta iota delta
    [bind ret gets modify log lift self alloc fst snd
     set_omCLIProxyPath set_sha256Checksum
     fs open_files trace].

(** ** What one call of [fileSha256] does *)

Lemma next_fd_free (t : gmap nat descriptor) : t !! os.next_fd t = None.
Proof. unfold os.next_fd. apply not_elem_of_dom, is_fresh. Qed.

Lemma descriptor_released (t : gmap nat descriptor) d d' :
  delete (os.next_fd t) (<[os.next_fd t := d]> (<[os.next_fd t := d']> t)) = t.
Proof.
  rewrite insert_insert_eq, delete_insert_eq.
  apply delete_id, next_fd_free.
Qed.

Lemma fileSha256_spec path m t tr :
  fileSha256 path (mkWorld m t tr) =
  (returned path (classify m path),
   mkWorld m (descriptors_after path t (classify m path))
           (tr ++ syscalls path (os.next_fd t) (classify m path))).
Proof.
  unfold fileSha256, classify, os.Open, io.Copy, os.Close. run_st.
  destruct (os.resolve os.MAXSYMLINKS m path) as [target|e]; [|reflexivity].
  destruct (m !! target) as [n|] eqn:Hn; [|reflexivity].
  destruct (os.readable n); [|reflexivity].
  rewrite lookup_insert_eq. cbn. rewrite Hn.
  destruct n as [f| |l]; cbn; rewrite <- ?app_assoc; try reflexivity.
  destruct (cond f) eqn:Hc; cbn.
  - rewrite lookup_insert_eq. cbn. rewrite Hn, Hc. cbn.
    rewrite descriptor_released, <- ?app_assoc. reflexivity.
  - rewrite Nat.sub_0_r, insert_insert_eq, <- ?app_assoc. reflexivity.
  - rewrite lookup_insert_eq. cbn. rewrite Hn, Hc. cbn.
    rewrite descriptor_released, <- ?app_assoc. reflexivity.
Qed.

(** ** What the gate's operations do *)

Lemma perm_bits_not_symlink p :
  Z.land (Z.land p os.ModePerm) os.ModeSymlink = 0%Z.
Proof. rewrite <- Z.land_assoc. apply Z.land_0_r. Qed.

Lemma allowedOMCLIProxyBinary_spec om m t tr :
  allowedOMCLIProxyBinary (om, mkWorld m t tr) =
  (admission m (omCLIProxyPath om),
   (om, mkWorld m t
          (tr ++ if named_omcliproxy (omCLIProxyPath om)
                 then [EvLstat (omCLIProxyPath om)] else []))).
Proof.
  unfold allowedOMCLIProxyBinary, admission, named_omcliproxy, os.Lstat. run_st.
  destruct (String.eqb _ DefaultOMCLIProxyBinaryName); cbn.
  - destruct (m !! omCLIProxyPath om) as [[f| |l]|]; cbn; try reflexivity.
    rewrite perm_bits_not_symlink. reflexivity.
  - rewrite app_nil_r. reflexivity.
Qed.

Lemma bytes_Equal_eq a b : bytes_Equal a b = true <-> a = b.
Proof.
  revert b. induction a as [|x a IH]; intros [|y b]; cbn; try easy.
  rewrite andb_true_iff, IH. split.
  - intros [Hxy ->]. f_equal. apply Byte.byte_dec_bl, Hxy.
  - intros [= -> ->]. split; [apply Byte.byte_dec_lb|]; reflexivity.
Qed.

Lemma bytes_Equal_refl a : bytes_Equal a a = true.
Proof. apply bytes_Equal_eq. reflexivity. Qed.

Lemma bytes_Equal_neq a b : a <> b -> bytes_Equal a b = false.
Proof.
  intros Hne. destruct (bytes_Equal a b) eqn:E; [|reflexivity].
  apply bytes_Equal_eq in E. contradiction.
Qed.

Lemma SuspiciousOMCLIProxyBinary_spec om m t tr :
  let o := classify m (omCLIProxyPath om) in
  SuspiciousOMCLIProxyBinary (om, mkWorld m t tr) =
  (compare (sha256Checksum om) (returned (omCLIProxyPath om) o),
   (om, mkWorld m (descriptors_after (omCLIProxyPath om) t o)
          (tr ++ syscalls (omCLIProxyPath om) (os.next_fd t) o))).
Proof.
  unfold SuspiciousOMCLIProxyBinary. run_st. rewrite fileSha256_spec.
  destruct (returned _ _) as [current [err|]]; cbn; [reflexivity|].
  destruct (bytes_Equal current (sha256Checksum om)); reflexivity.
Qed.

Lemma SuspiciousOMCLIProxyBinary_result om w :
  fst (SuspiciousOMCLIProxyBinary (om, w)) =
  compare (sha256Checksum om) (fst (fileSha256 (omCLIProxyPath om) w)).
Proof.
  destruct w as [m t tr].
  rewrite SuspiciousOMCLIProxyBinary_spec, fileSha256_spec. reflexivity.
Qed.

(** What [NewOMReporter] returns and leaves behind. *)
Lemma NewOMReporter_spec cfg m t tr :
  let path := OMCLIProxyPath cfg in
  let o := classify m path in
  NewOMReporter cfg (mkWorld m t tr) =
  match admission m path with
  | Some err =>
      ((None, Some err),
       mkWorld m t (tr ++ if named_omcliproxy path then [EvLstat path] else []))
  | None =>
      (match returned path o with
       | (_, Some err) => (None, Some err)
       | (sum, None) =>
           (Some (mkOMReport path (EnhancedSecurityMode cfg) sum), None)
       end,
       mkWorld m (descriptors_after path t o)
               (tr ++ EvLstat path :: syscalls path (os.next_fd t) o))
  end.
Proof.
  cbn zeta. unfold NewOMReporter, alloc.
  unfold bind at 1. rewrite allowedOMCLIProxyBinary_spec. cbn [omCLIProxyPath].
  destruct (admission m (OMCLIProxyPath cfg)) as [err|] eqn:Ha; [reflexivity|].
  assert (named_omcliproxy (OMCLIProxyPath cfg) = true) as ->.
  { unfold admission in Ha. fold (named_omcliproxy (OMCLIProxyPath cfg)) in Ha.
    destruct (named_omcliproxy _); [reflexivity|discriminate]. }
  run_st. rewrite fileSha256_spec.
  destruct (returned _ _) as [sum [err|]]; cbn; rewrite <- app_assoc; reflexivity.
Qed.

Lemma resolve_regular fuel m path f :
  m !! path = Some (Regular f) -> os.resolve fuel m path = inl path.
Proof. intros Hn. destruct fuel; cbn; rewrite Hn; reflexivity. Qed.

Lemma resolve_directory fuel m path :
  m !! path = Some Directory -> os.resolve fuel m path = inl path.
Proof. intros Hn. destruct fuel; cbn; rewrite Hn; reflexivity. Qed.

Lemma classify_regular m path f :
  m !! path = Some (Regular f) ->
  classify m path =
  if Z.testbit (perm f) 8 then
    match cond f with
    | Healthy => Hashed path (length (data f)) (SHA256.Sum256 (data f))
    | ReadFault after => ReadFails path EIO (length (firstn after (data f)))
    | CloseFault => CloseFails path (length (data f))
    end
  else OpenFails EACCES.
Proof.
  intros Hn. unfold classify.
  rewrite (resolve_regular _ _ _ _ Hn), Hn. reflexivity.
Qed.

Lemma classify_directory m path :
  m !! path = Some Directory -> classify m path = ReadFails path EISDIR 0.
Proof.
  intros Hn. unfold classify.
  rewrite (resolve_directory _ _ _ Hn), Hn. reflexivity.
Qed.

(** The fingerprint depends on the files only, and on them only
    through the entry the path leads to. *)
Lemma fileSha256_regular path w f :
  fs w !! path = Some (Regular f) ->
  Z.testbit (perm f) 8 = true ->
  cond f = Healthy ->
  fileSha256 path w =
  ((SHA256.Sum256 (data f), None),
   mkWorld (fs w) (open_files w)
           (trace w ++ [EvOpen path; EvRead (os.next_fd (open_files w));
                        EvClose (os.next_fd (open_files w))])).
Proof.
  destruct w as [m t tr]. cbn [fs open_files trace]. intros Hn Hr Hc.
  rewrite fileSha256_spec, (classify_regular _ _ _ Hn), Hr, Hc. reflexivity.
Qed.

Lemma Sum256_length msg : length (SHA256.Sum256 msg) = SHA256.Size.
Proof. reflexivity. Qed.

(** ** Construction and validation *)

(** C6: for every executable path whose final component is not
    'omcliproxy', [NewOMReporter] fails with the name error and produces no
    client, whatever the files are; the world is returned as it was, so
    no system call was made. *)
Theorem C6_wrong_name_rejected_before_any_file_access cfg w :
  filepath.Base (OMCLIProxyPath cfg) <> DefaultOMCLIProxyBinaryName ->
  NewOMReporter cfg w = ((None, Some name_error), w).
Proof.
  intros Hname. destruct w as [m t tr]. rewrite NewOMReporter_spec. cbn zeta.
  unfold admission, named_omcliproxy.
  destruct (String.eqb_spec (filepath.Base (OMCLIProxyPath cfg))
              DefaultOMCLIProxyBinaryName) as [E|_]; [contradiction|].
  cbn. rewrite app_nil_r. reflexivity.
Qed.

Lemma C6_witness :
  filepath.Base "testdata/maliciousproxy" <> DefaultOMCLIProxyBinaryName /\
  NewOMReporter (mkConfig "testdata/maliciousproxy" true) (boot disk_foo)
  = ((None, Some name_error), boot disk_foo).
Proof.
  assert (H : filepath.Base "testdata/maliciousproxy" <> DefaultOMCLIProxyBinaryName)
    by (vm_compute; discriminate).
  split; [exact H|].
  exact (C6_wrong_name_rejected_before_any_file_access
           (mkConfig "testdata/maliciousproxy" true) (boot disk_foo) H).
Defined.

(** C7: for every path that is a symbolic link, [NewOMReporter] fails
    and produces no client, whatever the link leads to; when the name is
    'omcliproxy' the error is the symlink error and the file is never
    opened. *)
Theorem C7_symlink_rejected cfg w target :
  fs w !! OMCLIProxyPath cfg = Some (Link target) ->
  fst (NewOMReporter cfg w) =
    (None, Some (if named_omcliproxy (OMCLIProxyPath cfg)
                 then symlink_error (OMCLIProxyPath cfg) else name_error))
  /\ open_files (snd (NewOMReporter cfg w)) = open_files w
  /\ fs (snd (NewOMReporter cfg w)) = fs w.
Proof.
  destruct w as [m t tr]. cbn [fs open_files]. intros Hl.
  rewrite NewOMReporter_spec. cbn zeta. unfold admission.
  fold (named_omcliproxy (OMCLIProxyPath cfg)).
  destruct (named_omcliproxy (OMCLIProxyPath cfg)); cbn; [rewrite Hl|];
    repeat split; reflexivity.
Qed.

Lemma C7_witness :
  fs (boot disk_link) !! OMCLIProxyPath (mkConfig installed true)
    = Some (Link "/tmp/omcliproxy") /\
  fst (NewOMReporter (mkConfig installed true) (boot disk_link))
    = (None, Some (symlink_error installed)).
Proof.
  assert (H : fs (boot disk_link) !! OMCLIProxyPath (mkConfig installed true)
              = Some (Link "/tmp/omcliproxy")) by (vm_compute; reflexivity).
  split; [exact H|].
  exact (proj1 (C7_symlink_rejected (mkConfig installed true) (boot disk_link)
                  "/tmp/omcliproxy" H)).
Defined.

(** C2 as stated fails: a directory named 'omcliproxy' passes
    [allowedOMCLIProxyBinary]. *)
Lemma C2_directory_passes_validation :
  filepath.Base installed = DefaultOMCLIProxyBinaryName /\
  fs (boot disk_dir) !! installed = Some Directory /\
  fst (allowedOMCLIProxyBinary (mkOMReport installed true [], boot disk_dir)) = None.
Proof. vm_compute. repeat split; reflexivity. Qed.

(** C2, amended: [allowedOMCLIProxyBinary] succeeds exactly when the
    final component of the path is 'omcliproxy' and the path names an
    existing entry that is not a symbolic link; it does not ask for a
    regular file. *)
Theorem C2_validation_checks_name_and_symlink_only om w :
  fst (allowedOMCLIProxyBinary (om, w)) = None <->
  filepath.Base (omCLIProxyPath om) = DefaultOMCLIProxyBinaryName /\
  exists n, fs w !! omCLIProxyPath om = Some n /\ forall t, n <> Link t.
Proof.
  destruct w as [m t tr]. rewrite allowedOMCLIProxyBinary_spec.
  cbn [fst fs]. unfold admission.
  destruct (String.eqb_spec (filepath.Base (omCLIProxyPath om))
              DefaultOMCLIProxyBinaryName) as [E|E]; cbn.
  - destruct (m !! omCLIProxyPath om) as [[f| |l]|]; split;
      try discriminate; try (intros _; split; [exact E|]; eexists; split;
        [reflexivity|discriminate]); try reflexivity.
    + intros [_ (n & [= <-] & Hn)]. destruct (Hn l). reflexivity.
    + intros [_ (n & Hn & _)]. discriminate.
  - split; [discriminate|]. intros [E' _]. contradiction.
Qed.

Lemma C2_witness :
  fst (allowedOMCLIProxyBinary (client_foo true, boot disk_foo)) = None
  /\ fst (allowedOMCLIProxyBinary (client_foo true, boot disk_dir)) = None.
Proof.
  split.
  - apply (proj2 (C2_validation_checks_name_and_symlink_only
                    (client_foo true) (boot disk_foo))).
    split; [vm_compute; reflexivity|].
    exists (binary "foo" 0 7). split; [vm_compute; reflexivity|discriminate].
  - apply (proj2 (C2_validation_checks_name_and_symlink_only
                    (client_foo true) (boot disk_dir))).
    split; [vm_compute; reflexivity|].
    exists Directory. split; [vm_compute; reflexivity|discriminate].
Defined.

(** C5: for a readable, healthy regular file named 'omcliproxy',
    [NewOMReporter] succeeds, and [fileSha256] on the same path right
    after returns the stored baseline, the 32-byte SHA-256 of the
    file's content. *)
Theorem C5_baseline_is_the_fingerprint cfg w f :
  filepath.Base (OMCLIProxyPath cfg) = DefaultOMCLIProxyBinaryName ->
  fs w !! OMCLIProxyPath cfg = Some (Regular f) ->
  Z.testbit (perm f) 8 = true ->
  cond f = Healthy ->
  exists om w1,
    NewOMReporter cfg w = ((Some om, None), w1)
    /\ fst (fileSha256 (OMCLIProxyPath cfg) w1) = (sha256Checksum om, None)
    /\ sha256Checksum om = SHA256.Sum256 (data f)
    /\ length (sha256Checksum om) = 32%nat
    /\ omCLIProxyPath om = OMCLIProxyPath cfg
    /\ fs w1 = fs w.
Proof.
  destruct w as [m t tr]. cbn [fs]. intros Hname Hn Hr Hc.
  rewrite NewOMReporter_spec. cbn zeta. unfold admission.
  rewrite Hname, String.eqb_refl, Hn. cbn [negb].
  rewrite (classify_regular _ _ _ Hn), Hr, Hc. cbn [returned descriptors_after].
  eexists. eexists. split; [reflexivity|].
  rewrite fileSha256_spec, (classify_regular _ _ _ Hn), Hr, Hc.
  repeat split; reflexivity.
Qed.

Lemma C5_witness :
  filepath.Base installed = DefaultOMCLIProxyBinaryName /\
  fs (boot disk_foo) !! installed = Some (binary "foo" 0 7) /\
  exists om w1,
    NewOMReporter (mkConfig installed true) (boot disk_foo) = ((Some om, None), w1)
    /\ fst (fileSha256 installed w1) = (sha256Checksum om, None)
    /\ sha256Checksum om = sha_foo.
Proof.
  assert (H1 : filepath.Base installed = DefaultOMCLIProxyBinaryName)
    by (vm_compute; reflexivity).
  assert (H2 : fs (boot disk_foo) !! installed = Some (binary "foo" 0 7))
    by (vm_compute; reflexivity).
  split; [exact H1|]. split; [exact H2|].
  destruct (C5_baseline_is_the_fingerprint (mkConfig installed true)
              (boot disk_foo) _ H1 H2 eq_refl eq_refl)
    as (om & w1 & Hnew & Hsum & Hfoo & _).
  exists om, w1. repeat split; assumption.
Defined.

(** ** The tamper check *)

(** C4: [SuspiciousOMCLIProxyBinary] returns nil exactly when
    [fileSha256] of the stored path succeeds with a checksum equal to the
    stored one; when it succeeds with a different checksum, the error
    message holds the current checksum and the stored one. *)
Theorem C4_tamper_verdict om w :
  (fst (SuspiciousOMCLIProxyBinary (om, w)) = None <->
   fst (fileSha256 (omCLIProxyPath om) w) = (sha256Checksum om, None))
  /\ (forall current,
        fst (fileSha256 (omCLIProxyPath om) w) = (current, None) ->
        current <> sha256Checksum om ->
        fst (SuspiciousOMCLIProxyBinary (om, w)) =
        Some (errorString
                ("current binary checksum " +:+ string_of_bytes current
                 +:+ " does not match the original checksum "
                 +:+ string_of_bytes (sha256Checksum om)
                 +:+ " which is very suspicious")))
  /\ (forall err,
        snd (fst (fileSha256 (omCLIProxyPath om) w)) = Some err ->
        fst (SuspiciousOMCLIProxyBinary (om, w)) = Some err).
Proof.
  rewrite SuspiciousOMCLIProxyBinary_result.
  destruct (fst (fileSha256 (omCLIProxyPath om) w)) as [current [err|]];
    cbn [compare snd].
  - repeat split; try discriminate. intros e [= <-]. reflexivity.
  - destruct (bytes_Equal current (sha256Checksum om)) eqn:E.
    + apply bytes_Equal_eq in E. subst current.
      repeat split; try reflexivity; try discriminate.
      intros c [= <-] Hne. contradiction.
    + repeat split; try discriminate.
      * intros [= ->]. rewrite bytes_Equal_refl in E. discriminate.
      * intros c [= <-] _. reflexivity.
Qed.

Lemma C4_witness :
  fst (fileSha256 installed (boot disk_bar)) = (sha_bar, None) /\
  sha_bar <> sha_foo /\
  fst (SuspiciousOMCLIProxyBinary (mkOMReport installed true sha_foo, boot disk_bar))
  = Some (mismatch_error sha_bar sha_foo).
Proof.
  assert (H1 : fst (fileSha256 installed (boot disk_bar)) = (sha_bar, None))
    by (vm_compute; reflexivity).
  assert (H2 : sha_bar <> sha_foo) by (vm_compute; discriminate).
  split; [exact H1|]. split; [exact H2|].
  exact (proj1 (proj2 (C4_tamper_verdict (mkOMReport installed true sha_foo)
                         (boot disk_bar))) sha_bar H1 H2).
Defined.

(** ** The file handle *)

(** Where the descriptor opened by [fileSha256] ends up: it is given
    back unless the read fails, in which case it stays open. *)
Lemma fileSha256_descriptors path w :
  open_files (snd (fileSha256 path w)) =
  match classify (fs w) path with
  | ReadFails target _ served =>
      <[os.next_fd (open_files w) := Descriptor path target served]>
        (open_files w)
  | _ => open_files w
  end.
Proof.
  destruct w as [m t tr]. rewrite fileSha256_spec. cbn.
  destruct (classify m path); reflexivity.
Qed.

(** C1 fails on the code: when the read fails, [fileSha256] returns
    without closing the file.  Opening a directory succeeds and reading it
    fails; the call returns the read error and descriptor 0 is still
    open.  [NewOMReporter] on such a path leaks it the same way. *)
Theorem C1_read_failure_leaves_descriptor_open :
  fileSha256 installed (boot disk_dir) =
    (([], Some (PathError "read" installed EISDIR)),
     mkWorld disk_dir {[ 0%nat := Descriptor installed installed 0 ]}
             [EvOpen installed; EvRead 0])
  /\ open_files (boot disk_dir) = ∅
  /\ open_files (snd (NewOMReporter (mkConfig installed true) (boot disk_dir)))
     = {[ 0%nat := Descriptor installed installed 0 ]}.
Proof. vm_compute. repeat split; reflexivity. Qed.

(** ** Reports and the client over its lifetime *)

Section ReportProperties.

Variable program :
  string -> list string -> gmap string node ->
  (list byte * option error) * gmap string node.

Lemma Report_spec args om m t tr :
  omCLIProxyPath om <> "" ->
  let path := omCLIProxyPath om in
  let o := classify m path in
  let ran := program path (command_line args) m in
  Report program args (om, mkWorld m t tr) =
  if enhancedSecurityMode om then
    match compare (sha256Checksum om) (returned path o) with
    | Some err =>
        (([], Some err),
         (om, mkWorld m (descriptors_after path t o)
                (tr ++ syscalls path (os.next_fd t) o)))
    | None =>
        (fst ran,
         (om, mkWorld (snd ran) (descriptors_after path t o)
                ((tr ++ syscalls path (os.next_fd t) o)
                   ++ [EvExec path (command_line args)])))
    end
  else
    (fst ran, (om, mkWorld (snd ran) t (tr ++ [EvExec path (command_line args)]))).
Proof.
  intros Hpath. cbn zeta. unfold Report, CombinedOutput.
  unfold bind at 1. unfold self at 1, gets at 1. cbn [fst].
  destruct (String.eqb_spec (omCLIProxyPath om) "") as [E|_]; [contradiction|].
  unfold bind at 1, ret at 1. unfold bind at 1. unfold self at 1, gets at 1.
  cbn [fst]. destruct (enhancedSecurityMode om).
  - unfold bind at 1. rewrite SuspiciousOMCLIProxyBinary_spec. cbn zeta.
    destruct (compare _ _); [reflexivity|]. run_st. reflexivity.
  - run_st. reflexivity.
Qed.

End ReportProperties.

Lemma Base_empty : filepath.Base "" <> DefaultOMCLIProxyBinaryName.
Proof. vm_compute. discriminate. Qed.

(** A client is returned only with a nil error, only for a readable,
    healthy regular file named 'omcliproxy', and holds the path, the mode
    and the SHA-256 of the content. *)
Lemma NewOMReporter_inv cfg w om err w1 :
  NewOMReporter cfg w = ((Some om, err), w1) ->
  err = None
  /\ filepath.Base (OMCLIProxyPath cfg) = DefaultOMCLIProxyBinaryName
  /\ OMCLIProxyPath cfg <> ""
  /\ fs w1 = fs w
  /\ open_files w1 = open_files w
  /\ exists f,
       fs w !! OMCLIProxyPath cfg = Some (Regular f)
       /\ Z.testbit (perm f) 8 = true
       /\ cond f = Healthy
       /\ om = mkOMReport (OMCLIProxyPath cfg) (EnhancedSecurityMode cfg)
                          (SHA256.Sum256 (data f)).
Proof.
  destruct w as [m t tr]. rewrite NewOMReporter_spec. cbn zeta. cbn [fs open_files].
  unfold admission.
  destruct (String.eqb_spec (filepath.Base (OMCLIProxyPath cfg))
              DefaultOMCLIProxyBinaryName) as [E|E]; cbn [negb]; [|discriminate].
  assert (Hne : OMCLIProxyPath cfg <> "").
  { intros E0. rewrite E0 in E. exact (Base_empty E). }
  destruct (m !! OMCLIProxyPath cfg) as [[f| |l]|] eqn:Hn; try discriminate.
  - rewrite (classify_regular _ _ _ Hn).
    destruct (Z.testbit (perm f) 8) eqn:Hr; [|discriminate].
    destruct (cond f) eqn:Hc; cbn; try discriminate.
    intros [= <- <- <-]. repeat split; try assumption; try reflexivity.
    exists f. repeat split; assumption.
  - rewrite (classify_directory _ _ Hn). discriminate.
Qed.


Section ClientLifetime.

Variable program :
  string -> list string -> gmap string node ->
  (list byte * option error) * gmap string node.
Context (T : Type) `{Unmarshaler T}.

Lemma Report_keeps_client args om w :
  omCLIProxyPath om <> "" ->
  fst (snd (Report program args (om, w))) = om.
Proof.
  intros Hne. destruct w as [m t tr]. rewrite Report_spec by assumption.
  cbn zeta. destruct (enhancedSecurityMode om); [|reflexivity].
  destruct (compare _ _); reflexivity.
Qed.

Lemma report_into_keeps_client args om w :
  omCLIProxyPath om <> "" ->
  fst (snd (report_into program T args (om, w))) = om.
Proof.
  intros Hne. unfold report_into, bind.
  pose proof (Report_keeps_client args om w Hne) as Hk.
  destruct (Report program args (om, w)) as [[out err] [om' w']].
  cbn in Hk. subst om'.
  destruct err; [reflexivity|].
  destruct (Unmarshal out zero) as [v [e|]]; reflexivity.
Qed.

Lemma SuspiciousOMCLIProxyBinary_keeps_client om w :
  fst (snd (SuspiciousOMCLIProxyBinary (om, w))) = om.
Proof.
  destruct w as [m t tr]. rewrite SuspiciousOMCLIProxyBinary_spec. reflexivity.
Qed.

Lemma forget_state {A} (m : Method A) s : snd (forget m s) = snd (m s).
Proof. unfold forget, bind, ret. destruct (m s). reflexivity. Qed.

Lemma perform_keeps_client o om w :
  omCLIProxyPath om <> "" ->
  fst (snd (perform program T o (om, w))) = om.
Proof.
  intros Hne. destruct o; cbn [perform]; rewrite forget_state;
    first [ apply Report_keeps_client; assumption
          | apply SuspiciousOMCLIProxyBinary_keeps_client
          | apply report_into_keeps_client; assumption ].
Qed.

Lemma lifetime_keeps_client steps om w :
  omCLIProxyPath om <> "" ->
  fst (snd (lifetime program T steps (om, w))) = om.
Proof.
  intros Hne. revert w. induction steps as [|s steps IH]; intros w.
  - reflexivity.
  - cbn [lifetime]. unfold bind at 1.
    destruct (take_step program T s (om, w)) as [u [om' w']] eqn:Hs.
    assert (om' = om) as ->.
    { destruct s as [o|change].
      - pose proof (perform_keeps_client o om w Hne) as Hk.
        cbn [take_step] in Hs. rewrite Hs in Hk. exact Hk.
      - cbn in Hs. injection Hs as _ <- _. reflexivity. }
    apply IH.
Qed.

End ClientLifetime.

Lemma checks_unmodified om f n :
  forall w,
    fs w !! omCLIProxyPath om = Some (Regular f) ->
    Z.testbit (perm f) 8 = true ->
    cond f = Healthy ->
    sha256Checksum om = SHA256.Sum256 (data f) ->
    Forall (fun v => v = None) (fst (checks n (om, w)))
    /\ fst (snd (checks n (om, w))) = om
    /\ fs (snd (snd (checks n (om, w)))) = fs w.
Proof.
  induction n as [|n IH]; intros [m t tr] Hn Hr Hc Hsum.
  - cbn. repeat split. constructor.
  - cbn [fs] in Hn.
    set (w' := mkWorld m t
      (tr ++ [EvOpen (omCLIProxyPath om); EvRead (os.next_fd t);
              EvClose (os.next_fd t)])).
    assert (Hstep : checks (S n) (om, mkWorld m t tr) =
                    (None :: fst (checks n (om, w')), snd (checks n (om, w')))).
    { cbn [checks]. unfold bind at 1.
      rewrite SuspiciousOMCLIProxyBinary_spec. cbn zeta.
      rewrite (classify_regular _ _ _ Hn), Hr, Hc.
      cbn [returned compare descriptors_after syscalls].
      rewrite <- Hsum, bytes_Equal_refl. fold w'.
      unfold bind, ret. destruct (checks n (om, w')). reflexivity. }
    rewrite Hstep. cbn [fst snd].
    destruct (IH w' Hn Hr Hc Hsum) as (Hall & Hom & Hfs).
    repeat split; [constructor; [reflexivity|assumption]|assumption|assumption].
Qed.

(** C3: a client returned by [NewOMReporter] has a non-empty path, so
    [Report] never replaces it by the default; no operation, in any
    order and whatever happens to the files in between, changes the
    stored path or the stored checksum; and while the file at the path
    is what it was at construction, every tamper check in a row returns
    nil and leaves the checksum as it is. *)
Theorem C3_client_fields_never_change
    program (T : Type) `{Unmarshaler T} cfg w om w1 :
  NewOMReporter cfg w = ((Some om, None), w1) ->
  omCLIProxyPath om <> ""
  /\ (forall steps w2,
        omCLIProxyPath (fst (snd (lifetime program T steps (om, w2))))
          = omCLIProxyPath om
        /\ sha256Checksum (fst (snd (lifetime program T steps (om, w2))))
          = sha256Checksum om)
  /\ (forall args w2,
        omCLIProxyPath (fst (snd (Report program args (om, w2))))
          = OMCLIProxyPath cfg)
  /\ (forall n w2,
        fs w2 !! omCLIProxyPath om = fs w !! omCLIProxyPath om ->
        Forall (fun v => v = None) (fst (checks n (om, w2)))
        /\ sha256Checksum (fst (snd (checks n (om, w2)))) = sha256Checksum om).
Proof.
  intros Hnew.
  destruct (NewOMReporter_inv _ _ _ _ _ Hnew)
    as (_ & Hname & Hne & Hfs & _ & f & Hn & Hr & Hc & ->).
  cbn [omCLIProxyPath sha256Checksum]. split; [assumption|].
  split; [|split].
  - intros steps w2. rewrite lifetime_keeps_client by assumption.
    split; reflexivity.
  - intros args w2. rewrite Report_keeps_client by assumption. reflexivity.
  - intros n w2 Hsame. rewrite Hn in Hsame.
    destruct (checks_unmodified
                (mkOMReport (OMCLIProxyPath cfg) (EnhancedSecurityMode cfg)
                            (SHA256.Sum256 (data f))) f n w2 Hsame Hr Hc eq_refl)
      as (Hall & Hom & _).
    split; [assumption|]. rewrite Hom. reflexivity.
Qed.

Lemma C3_witness :
  NewOMReporter (mkConfig installed true) (boot disk_foo)
    = ((Some (client_foo true), None), after_construction)
  /\ omCLIProxyPath (client_foo true) <> ""
  /\ sha256Checksum
       (fst (snd (lifetime quiet unit
                    [Call (OpReport ["about"]); Elsewhere (fun _ => disk_bar);
                     Call OpSuspiciousOMCLIProxyBinary; Call (OpStoragePDisk 0)]
                    (client_foo true, after_construction))))
     = sha_foo
  /\ Forall (fun v => v = None) (fst (checks 3 (client_foo true, after_construction))).
Proof.
  assert (H0 : NewOMReporter (mkConfig installed true) (boot disk_foo)
               = ((Some (client_foo true), None), after_construction))
    by (vm_compute; reflexivity).
  pose proof (C3_client_fields_never_change quiet unit
                (mkConfig installed true) (boot disk_foo)
                (client_foo true) after_construction H0) as (H1 & H2 & _ & H4).
  split; [exact H0|]. split; [exact H1|]. split.
  - exact (proj2 (H2 _ after_construction)).
  - exact (proj1 (H4 3%nat after_construction eq_refl)).
Defined.

(** C9: on a client built with enhanced security mode off, [Report]
    makes no system call of its own but the spawn of the tool: the file is
    not opened or read, the stored checksum is not compared, and the tool
    is started with the path and the arguments in every world and for
    every argument list; what it returns is returned. *)
Theorem C9_disabled_mode_runs_tool_unchecked program cfg w om w1 :
  NewOMReporter cfg w = ((Some om, None), w1) ->
  EnhancedSecurityMode cfg = false ->
  forall args w2,
    Report program args (om, w2) =
    (fst (program (OMCLIProxyPath cfg) (command_line args) (fs w2)),
     (om, mkWorld (snd (program (OMCLIProxyPath cfg) (command_line args) (fs w2)))
            (open_files w2)
            (trace w2 ++ [EvExec (OMCLIProxyPath cfg) (command_line args)]))).
Proof.
  intros Hnew Hoff args [m t tr].
  destruct (NewOMReporter_inv _ _ _ _ _ Hnew)
    as (_ & _ & Hne & _ & _ & f & _ & _ & _ & ->).
  rewrite Report_spec by assumption. cbn zeta.
  cbn [enhancedSecurityMode omCLIProxyPath fs open_files trace].
  rewrite Hoff. reflexivity.
Qed.

Lemma C9_witness :
  NewOMReporter (mkConfig installed false) (boot disk_foo)
    = ((Some (client_foo false), None), after_construction)
  /\ EnhancedSecurityMode (mkConfig installed false) = false
  /\ Report quiet ["chassis"] (client_foo false, boot disk_bar)
     = (([], None),
        (client_foo false,
         mkWorld disk_bar ∅
                 [EvExec installed ["omreport"; "chassis"; "-fmt"; "xml"]])).
Proof.
  assert (H0 : NewOMReporter (mkConfig installed false) (boot disk_foo)
               = ((Some (client_foo false), None), after_construction))
    by (vm_compute; reflexivity).
  split; [exact H0|]. split; [reflexivity|].
  exact (C9_disabled_mode_runs_tool_unchecked quiet (mkConfig installed false)
           (boot disk_foo) (client_foo false) after_construction H0 eq_refl
           ["chassis"] (boot disk_bar)).
Defined.

(** ** The code tables *)

Lemma switch_default v cases default :
  ~ In v (map fst cases) -> switch v cases default = default.
Proof.
  induction cases as [|[c r] cases IH]; cbn; [reflexivity|].
  intros Hnot. destruct (Z.eqb_spec v c) as [->|_].
  - exfalso. apply Hnot. left. reflexivity.
  - apply IH. intros Hin. apply Hnot. right. exact Hin.
Qed.

Lemma small_codes_render_as_characters :
  forallb renders_as_character (seq 0 128) = true.
Proof. vm_compute. reflexivity. Qed.

Lemma intstring_small c :
  (0 <= c < 128)%Z ->
  utf8.intstring c = character c /\ utf8.intstring c <> decimal c.
Proof.
  intros Hc.
  pose proof small_codes_render_as_characters as Hall.
  rewrite forallb_forall in Hall.
  specialize (Hall (Z.to_nat c)).
  unfold renders_as_character in Hall. rewrite Z2Nat.id in Hall by lia.
  assert (Hin : In (Z.to_nat c) (seq 0 128)) by (apply in_seq; lia).
  apply Hall in Hin. apply andb_true_iff in Hin as [H1 H2].
  apply String.eqb_eq in H1. split; [exact H1|].
  intros E. rewrite E, String.eqb_refl in H2. discriminate.
Qed.

(** C10: for every code outside the known values, each [String] method
    returns its "Unknown ... code " prefix followed by the conversion of
    the integer to a string, which is the character with that code
    point; for codes below 128 that is the single character with that
    code and never the decimal digits.  Status 65 gives
    "Unknown status code A". *)
Theorem C10_unknown_codes_render_as_characters c :
  (~ In c Status_codes ->
   Status_String c = "Unknown status code " +:+ utf8.intstring c)
  /\ (~ In c State_codes ->
      State_String c = "Unknown state code " +:+ utf8.intstring c)
  /\ (~ In c BusProtocol_codes ->
      BusProtocol_String c = "Unknown bus protocol code " +:+ utf8.intstring c)
  /\ (~ In c Layout_codes ->
      Layout_String c = "Unknown layout code " +:+ utf8.intstring c)
  /\ ((0 <= c < 128)%Z ->
      utf8.intstring c = character c /\ utf8.intstring c <> decimal c)
  /\ Status_String 65 = "Unknown status code A"
  /\ Status_String 65 <> "Unknown status code " +:+ decimal 65.
Proof.
  repeat split.
  - intros Hc. apply switch_default. exact Hc.
  - intros Hc. apply switch_default. exact Hc.
  - intros Hc. apply switch_default. exact Hc.
  - intros Hc. apply switch_default. exact Hc.
  - apply intstring_small. assumption.
  - apply intstring_small. assumption.
  - vm_compute. discriminate.
Qed.

Lemma C10_witness :
  ~ In 65%Z Status_codes /\ ~ In 65%Z State_codes
  /\ ~ In 65%Z BusProtocol_codes /\ ~ In 65%Z Layout_codes
  /\ (0 <= 65 < 128)%Z
  /\ Status_String 65 = "Unknown status code " +:+ utf8.intstring 65
  /\ State_String 65 = "Unknown state code " +:+ utf8.intstring 65
  /\ BusProtocol_String 65 = "Unknown bus protocol code " +:+ utf8.intstring 65
  /\ Layout_String 65 = "Unknown layout code " +:+ utf8.intstring 65
  /\ utf8.intstring 65 = "A".
Proof.
  assert (H1 : ~ In 65%Z Status_codes) by (cbn; intuition discriminate).
  assert (H2 : ~ In 65%Z State_codes) by (cbn; intuition discriminate).
  assert (H3 : ~ In 65%Z BusProtocol_codes) by (cbn; intuition discriminate).
  assert (H4 : ~ In 65%Z Layout_codes) by (cbn; intuition discriminate).
  assert (H5 : (0 <= 65 < 128)%Z) by lia.
  destruct (C10_unknown_codes_render_as_characters 65)
    as (T1 & T2 & T3 & T4 & T5 & _).
  repeat (split; [assumption|]).
  split; [exact (T1 H1)|]. split; [exact (T2 H2)|].
  split; [exact (T3 H3)|]. split; [exact (T4 H4)|].
  exact (proj1 (T5 H5)).
Defined.

(** ** Digests collide *)

Lemma to_N_lt b : (Byte.to_N b < 256)%N.
Proof. pose proof (Byte.to_N_bounded b). lia. Qed.

Lemma to_N_low_byte n : Byte.to_N (low_byte n) = (n mod 256)%N.
Proof.
  unfold low_byte. destruct (Byte.of_N (n mod 256)) as [b|] eqn:E.
  - apply Byte.to_of_N. exact E.
  - apply Byte.of_N_None_iff in E.
    pose proof (N.mod_lt n 256). lia.
Qed.

Lemma le_value_le_bytes k : forall n,
  (n < 256 ^ N.of_nat k)%N -> le_value (le_bytes k n) = n.
Proof.
  induction k as [|k IH]; intros n Hn.
  - cbn in *. lia.
  - cbn [le_bytes le_value]. rewrite to_N_low_byte.
    rewrite Nat2N.inj_succ, N.pow_succ_r' in Hn.
    rewrite IH.
    + pose proof (N.div_mod n 256). lia.
    + apply N.Div0.div_lt_upper_bound. exact Hn.
Qed.

Lemma le_value_bound l : (le_value l < 256 ^ N.of_nat (length l))%N.
Proof.
  induction l as [|b l IH].
  - cbn. lia.
  - cbn [le_value length]. rewrite Nat2N.inj_succ, N.pow_succ_r'.
    pose proof (to_N_lt b). lia.
Qed.

Lemma to_N_inj a b : Byte.to_N a = Byte.to_N b -> a = b.
Proof.
  intros E. pose proof (Byte.of_to_N a) as Ha.
  rewrite E, Byte.of_to_N in Ha. congruence.
Qed.

Lemma le_value_inj l : forall l',
  length l = length l' -> le_value l = le_value l' -> l = l'.
Proof.
  induction l as [|a l IH]; intros [|b l'] Hlen Hval; try discriminate.
  - reflexivity.
  - cbn [le_value] in Hval. injection Hlen as Hlen.
    pose proof (to_N_lt a). pose proof (to_N_lt b).
    assert (Byte.to_N a = Byte.to_N b) by lia.
    assert (le_value l = le_value l') by lia.
    f_equal; [apply to_N_inj; assumption | apply IH; assumption].
Qed.

(** Looking for a value among the first arguments of a function. *)
Lemma bounded_search (f : N -> N) (v m : N) :
  (exists x, (x <= m)%N /\ f x = v) \/ (forall x, (x <= m)%N -> f x <> v).
Proof.
  induction m as [|m IH] using N.peano_ind.
  - destruct (N.eq_dec (f 0%N) v) as [E|E].
    + left. exists 0%N. split; [lia|exact E].
    + right. intros x Hx. assert (x = 0%N) as -> by lia. exact E.
  - destruct IH as [(x & Hx & E)|Hnone].
    + left. exists x. split; [lia|exact E].
    + destruct (N.eq_dec (f (N.succ m)) v) as [E|E].
      * left. exists (N.succ m). split; [lia|exact E].
      * right. intros x Hx.
        destruct (N.eq_dec x (N.succ m)) as [->|Hne]; [exact E|].
        apply Hnone. lia.
Qed.

(** More arguments than values: two arguments share a value. *)
Lemma pigeonhole (m : N) : forall f : N -> N,
  (forall x, (x <= m)%N -> (f x < m)%N) ->
  exists x y, (x < y <= m)%N /\ f x = f y.
Proof.
  induction m as [|m IH] using N.peano_ind; intros f Hf.
  - specialize (Hf 0%N). lia.
  - destruct (bounded_search f (f (N.succ m)) m) as [(x & Hx & E)|Hnone].
    + exists x, (N.succ m). split; [lia|exact E].
    + set (v := f (N.succ m)) in *.
      set (g := fun x => if (f x <? v)%N then f x else N.pred (f x)).
      destruct (IH g) as (x & y & Hxy & E).
      * intros x Hx. unfold g.
        pose proof (Hf x ltac:(lia)). pose proof (Hnone x Hx).
        pose proof (Hf (N.succ m) ltac:(lia)). fold v in H1.
        destruct (N.ltb_spec (f x) v); lia.
      * exists x, y. split; [lia|].
        pose proof (Hnone x ltac:(lia)). pose proof (Hnone y ltac:(lia)).
        unfold g in E.
        destruct (N.ltb_spec (f x) v); destruct (N.ltb_spec (f y) v); lia.
Qed.

(** SHA-256 maps the byte strings of length 33 to 32 bytes, so two
    different contents have the same digest. *)
Lemma Sum256_collision :
  exists a b : list byte, a <> b /\ SHA256.Sum256 a = SHA256.Sum256 b.
Proof.
  set (f := fun n => le_value (SHA256.Sum256 (le_bytes 33 n))).
  destruct (pigeonhole (256 ^ 32)%N f) as (x & y & Hxy & E).
  - intros x _. unfold f.
    pose proof (le_value_bound (SHA256.Sum256 (le_bytes 33 x))) as Hb.
    rewrite Sum256_length in Hb. exact Hb.
  - exists (le_bytes 33 x), (le_bytes 33 y). split.
    + intros Heq. apply (f_equal le_value) in Heq.
      assert (Hlt : (256 ^ 32 < 256 ^ N.of_nat 33)%N) by (vm_compute; reflexivity).
      rewrite !le_value_le_bytes in Heq by lia. lia.
    + apply le_value_inj; [|exact E].
      rewrite !Sum256_length. reflexivity.
Qed.

(** ** Altering and restoring the file *)

Lemma Base_installed : filepath.Base installed = DefaultOMCLIProxyBinaryName.
Proof. vm_compute. reflexivity. Qed.

Lemma NewOMReporter_disk_of content stamp inode :
  fst (NewOMReporter (mkConfig installed true) (boot (disk_of content stamp inode)))
  = (Some (mkOMReport installed true (SHA256.Sum256 content)), None).
Proof.
  unfold boot. rewrite NewOMReporter_spec. cbn zeta.
  cbn [OMCLIProxyPath EnhancedSecurityMode]. unfold admission.
  rewrite Base_installed, String.eqb_refl. cbn [negb].
  assert (Hn : disk_of content stamp inode !! installed
               = Some (Regular (File content 493 Healthy stamp inode)))
    by apply lookup_singleton_eq.
  rewrite Hn, (classify_regular _ _ _ Hn). reflexivity.
Qed.

Lemma Suspicious_disk_of om content stamp inode :
  omCLIProxyPath om = installed ->
  fst (SuspiciousOMCLIProxyBinary (om, boot (disk_of content stamp inode)))
  = compare (sha256Checksum om) (SHA256.Sum256 content, None).
Proof.
  intros Hp. unfold boot. rewrite SuspiciousOMCLIProxyBinary_spec. cbn zeta.
  rewrite Hp.
  assert (Hn : disk_of content stamp inode !! installed
               = Some (Regular (File content 493 Healthy stamp inode)))
    by apply lookup_singleton_eq.
  rewrite (classify_regular _ _ _ Hn). reflexivity.
Qed.

(** C8 as stated fails: there are two different contents such that a
    client built on the first finds nothing suspicious after the file
    was overwritten with the second, because their SHA-256 digests are
    the same. *)
Lemma C8_altered_content_can_pass_the_check :
  exists original altered : list byte,
    original <> altered
    /\ fst (NewOMReporter (mkConfig installed true) (boot (disk_of original 0 7)))
       = (Some (mkOMReport installed true (SHA256.Sum256 original)), None)
    /\ fst (SuspiciousOMCLIProxyBinary
              (mkOMReport installed true (SHA256.Sum256 original),
               boot (disk_of altered 5 7)))
       = None.
Proof.
  destruct Sum256_collision as (a & b & Hne & Hsum).
  exists a, b. split; [exact Hne|]. split.
  - apply NewOMReporter_disk_of.
  - rewrite Suspicious_disk_of by reflexivity.
    cbn [compare sha256Checksum]. rewrite Hsum, bytes_Equal_refl. reflexivity.
Qed.

(** C8, amended: the fingerprint is the SHA-256 of the content at the
    path and nothing else.  For every client, when the file at the path
    is later a readable regular file, whatever its modification time and
    inode: if the digest of its content differs from the digest of the
    original content, the tamper check reports the mismatch; if its
    content is the original content again, the tamper check returns
    nil. *)
Theorem C8_verdict_follows_content cfg w om w1 :
  NewOMReporter cfg w = ((Some om, None), w1) ->
  exists original,
    fs w !! OMCLIProxyPath cfg = Some (Regular original)
    /\ sha256Checksum om = SHA256.Sum256 (data original)
    /\ forall w2 current,
         fs w2 !! OMCLIProxyPath cfg = Some (Regular current) ->
         Z.testbit (perm current) 8 = true ->
         cond current = Healthy ->
         fst (fileSha256 (OMCLIProxyPath cfg) w2)
           = (SHA256.Sum256 (data current), None)
         /\ (SHA256.Sum256 (data current) <> SHA256.Sum256 (data original) ->
             fst (SuspiciousOMCLIProxyBinary (om, w2))
             = Some (mismatch_error (SHA256.Sum256 (data current))
                                    (SHA256.Sum256 (data original))))
         /\ (data current = data original ->
             fst (SuspiciousOMCLIProxyBinary (om, w2)) = None).
Proof.
  intros Hnew.
  destruct (NewOMReporter_inv _ _ _ _ _ Hnew)
    as (_ & _ & _ & _ & _ & f & Hn & _ & _ & ->).
  exists f. split; [exact Hn|]. split; [reflexivity|].
  intros w2 current Hcur Hr Hc.
  rewrite SuspiciousOMCLIProxyBinary_result.
  cbn [omCLIProxyPath sha256Checksum].
  rewrite (fileSha256_regular _ _ _ Hcur Hr Hc). cbn [fst compare].
  split; [reflexivity|]. split.
  - intros Hdiff. rewrite (bytes_Equal_neq _ _ Hdiff). reflexivity.
  - intros ->. rewrite bytes_Equal_refl. reflexivity.
Qed.

Lemma C8_witness :
  NewOMReporter (mkConfig installed true) (boot disk_foo)
    = ((Some (client_foo true), None), after_construction)
  /\ sha_bar <> sha_foo
  /\ fst (SuspiciousOMCLIProxyBinary (client_foo true, boot disk_bar))
     = Some (mismatch_error sha_bar sha_foo)
  /\ fst (SuspiciousOMCLIProxyBinary (client_foo true, boot disk_foo_again)) = None.
Proof.
  assert (H0 : NewOMReporter (mkConfig installed true) (boot disk_foo)
               = ((Some (client_foo true), None), after_construction))
    by (vm_compute; reflexivity).
  assert (H1 : sha_bar <> sha_foo) by (vm_compute; discriminate).
  destruct (C8_verdict_follows_content (mkConfig installed true) (boot disk_foo)
              (client_foo true) after_construction H0)
    as (original & Ho & _ & Hafter).
  assert (Horig : original = File (list_byte_of_string "foo") 493 Healthy 0 7).
  { assert (Hl : fs (boot disk_foo) !! OMCLIProxyPath (mkConfig installed true)
                 = Some (binary "foo" 0 7)) by (vm_compute; reflexivity).
    rewrite Hl in Ho. injection Ho as <-. reflexivity. }
  subst original.
  split; [exact H0|]. split; [exact H1|]. split.
  - refine (proj1 (proj2 (Hafter (boot disk_bar)
              (File (list_byte_of_string "bar") 493 Healthy 5 7) _ _ _)) H1);
      vm_compute; reflexivity.
  - refine (proj2 (proj2 (Hafter (boot disk_foo_again)
              (File (list_byte_of_string "foo") 493 Healthy 9 8) _ _ _)) eq_refl);
      vm_compute; reflexivity.
Defined.

(** * Further properties *)

(** ** More on the fingerprint *)

Lemma classify_hashed m path t n sum :
  classify m path = Hashed t n sum ->
  exists f, m !! t = Some (Regular f) /\ sum = SHA256.Sum256 (data f)
            /\ Z.testbit (perm f) 8 = true /\ cond f = Healthy.
Proof.
  unfold classify.
  destruct (os.resolve os.MAXSYMLINKS m path) as [target|e]; [|discriminate].
  destruct (m !! target) as [node|] eqn:Hn; [|discriminate].
  destruct (os.readable node) eqn:Hr; [|discriminate].
  destruct node as [f| |l]; try discriminate.
  destruct (cond f) eqn:Hc; try discriminate.
  intros [= <- _ <-]. exists f. repeat split; assumption.
Qed.

Lemma returned_error_or_sum path o :
  (exists err, returned path o = ([], Some err))
  \/ (exists t n sum, o = Hashed t n sum /\ returned path o = (sum, None)).
Proof.
  destruct o; cbn; [left; eexists; reflexivity ..|].
  right. eexists _, _, _. split; reflexivity.
Qed.

Lemma fileSha256_digest_or_error_aux path w :
  (exists err, fst (fileSha256 path w) = ([], Some err))
  \/ (exists sum, fst (fileSha256 path w) = (sum, None) /\ length sum = 32%nat).
Proof.
  destruct w as [m t tr]. rewrite fileSha256_spec. cbn [fst].
  destruct (returned_error_or_sum path (classify m path))
    as [(err & ->)|(t0 & n & sum & Ho & ->)].
  - left. exists err. reflexivity.
  - right. exists sum. split; [reflexivity|].
    destruct (classify_hashed _ _ _ _ _ Ho) as (f & _ & -> & _).
    apply Sum256_length.
Qed.

(** X1: [fileSha256] returns either no bytes and an error, or a digest of
    32 bytes and a nil error, never part of a digest; and it leaves
    every file as it was. *)
Theorem fileSha256_digest_or_error path w :
  ((exists err, fst (fileSha256 path w) = ([], Some err))
   \/ (exists sum, fst (fileSha256 path w) = (sum, None) /\ length sum = 32%nat))
  /\ fs (snd (fileSha256 path w)) = fs w.
Proof.
  split; [apply fileSha256_digest_or_error_aux|].
  destruct w as [m t tr]. rewrite fileSha256_spec. reflexivity.
Qed.

(** X2: unless the error returned is a read error, the descriptors open
    after [fileSha256] are those open before; after a read error there
    is one more, the one the call opened. *)
Theorem fileSha256_descriptor_account path w :
  ((forall e, snd (fst (fileSha256 path w)) <> Some (PathError "read" path e)) ->
   open_files (snd (fileSha256 path w)) = open_files w)
  /\ (forall e, snd (fst (fileSha256 path w)) = Some (PathError "read" path e) ->
      open_files w !! os.next_fd (open_files w) = None
      /\ exists d, open_files (snd (fileSha256 path w))
                   = <[os.next_fd (open_files w) := d]> (open_files w)
                   /\ d_name d = path).
Proof.
  destruct w as [m t tr]. rewrite fileSha256_spec. cbn [fst snd open_files].
  destruct (classify m path) as [e0|t0 e0 n|t0 n|t0 n sum]; cbn; split;
    try (intros _; reflexivity); try discriminate.
  - intros Hnot. destruct (Hnot e0). reflexivity.
  - intros e _. split; [apply next_fd_free|].
    eexists. split; reflexivity.
Qed.


(** ** More on the tamper check *)

Lemma resolve_step fuel m path :
  os.resolve (S fuel) m path
  = match m !! path with
    | None => inr ENOENT
    | Some (Link t) => os.resolve fuel m t
    | Some _ => inl path
    end.
Proof. reflexivity. Qed.

Lemma resolve_link_to_regular m path target f :
  m !! path = Some (Link target) ->
  m !! target = Some (Regular f) ->
  os.resolve os.MAXSYMLINKS m path = inl target.
Proof.
  intros Hl Hn. change os.MAXSYMLINKS with (S 39).
  rewrite resolve_step, Hl. apply (resolve_regular _ _ _ _ Hn).
Qed.

(** X5: the tamper check follows symbolic links and does not repeat the
    validation of the path: when the path has become a link to a
    readable regular file, the verdict is that of comparing the digest
    of the link's target with the stored checksum, so a target with the
    original digest is not suspicious, although [NewOMReporter] rejects
    the same path in the same world. *)
Theorem tamper_check_follows_links om w target f :
  fs w !! omCLIProxyPath om = Some (Link target) ->
  fs w !! target = Some (Regular f) ->
  Z.testbit (perm f) 8 = true ->
  cond f = Healthy ->
  fst (SuspiciousOMCLIProxyBinary (om, w))
    = compare (sha256Checksum om) (SHA256.Sum256 (data f), None)
  /\ (SHA256.Sum256 (data f) = sha256Checksum om ->
      fst (SuspiciousOMCLIProxyBinary (om, w)) = None)
  /\ forall mode, exists err,
       fst (NewOMReporter (mkConfig (omCLIProxyPath om) mode) w) = (None, Some err).
Proof.
  destruct w as [m t tr]. cbn [fs]. intros Hl Hn Hr Hc.
  assert (Hv : fst (SuspiciousOMCLIProxyBinary (om, mkWorld m t tr))
               = compare (sha256Checksum om) (SHA256.Sum256 (data f), None)).
  { rewrite SuspiciousOMCLIProxyBinary_spec. cbn zeta. cbn [fst].
    unfold classify. rewrite (resolve_link_to_regular _ _ _ _ Hl Hn), Hn.
    cbn [os.readable]. rewrite Hr, Hc. reflexivity. }
  split; [exact Hv|]. split.
  - intros Hsame. rewrite Hv, Hsame. cbn [compare].
    rewrite bytes_Equal_refl. reflexivity.
  - intros mode. rewrite NewOMReporter_spec. cbn zeta.
    cbn [OMCLIProxyPath]. unfold admission.
    destruct (negb _).
    + eexists. reflexivity.
    + rewrite Hl. eexists. reflexivity.
Qed.

(** X6: a client whose stored checksum is not 32 bytes long, such as one
    that was not built by [NewOMReporter], never passes the tamper
    check. *)
Theorem tamper_check_needs_a_baseline om w :
  length (sha256Checksum om) <> 32%nat ->
  exists err, fst (SuspiciousOMCLIProxyBinary (om, w)) = Some err.
Proof.
  intros Hlen. rewrite SuspiciousOMCLIProxyBinary_result.
  destruct (fileSha256_digest_or_error_aux (omCLIProxyPath om) w)
    as [(err & ->)|(sum & -> & Hsum)]; cbn [compare].
  - exists err. reflexivity.
  - rewrite bytes_Equal_neq; [eexists; reflexivity|].
    intros ->. contradiction.
Qed.


(** ** More on reports *)

Lemma syscalls_spawn_nothing path fd o :
  List.filter is_exec (syscalls path fd o) = [].
Proof. destruct o; reflexivity. Qed.

Section MoreReportProperties.

Variable program :
  string -> list string -> gmap string node ->
  (list byte * option error) * gmap string node.
Context (T : Type) `{Unmarshaler T}.

Lemma Report_when_check_fails args om w err :
  omCLIProxyPath om <> "" ->
  enhancedSecurityMode om = true ->
  fst (SuspiciousOMCLIProxyBinary (om, w)) = Some err ->
  Report program args (om, w)
  = (([], Some err), snd (SuspiciousOMCLIProxyBinary (om, w))).
Proof.
  intros Hne Hon. destruct w as [m t tr].
  rewrite Report_spec by assumption. cbn zeta. rewrite Hon.
  rewrite SuspiciousOMCLIProxyBinary_spec. cbn zeta. cbn [fst snd].
  intros ->. reflexivity.
Qed.

Lemma Report_when_check_passes args om w :
  omCLIProxyPath om <> "" ->
  enhancedSecurityMode om = true ->
  fst (SuspiciousOMCLIProxyBinary (om, w)) = None ->
  Report program args (om, w)
  = lift (CombinedOutput program (omCLIProxyPath om) (command_line args))
         (snd (SuspiciousOMCLIProxyBinary (om, w))).
Proof.
  intros Hne Hon. destruct w as [m t tr].
  rewrite Report_spec by assumption. cbn zeta. rewrite Hon.
  rewrite SuspiciousOMCLIProxyBinary_spec. cbn zeta. cbn [fst snd].
  intros ->. unfold CombinedOutput. run_st. reflexivity.
Qed.

Lemma Suspicious_spawns_nothing om w :
  spawned (snd (snd (SuspiciousOMCLIProxyBinary (om, w)))) = spawned w
  /\ fs (snd (snd (SuspiciousOMCLIProxyBinary (om, w)))) = fs w.
Proof.
  destruct w as [m t tr]. rewrite SuspiciousOMCLIProxyBinary_spec.
  cbn zeta. cbn [fst snd]. unfold spawned. cbn [trace fs].
  rewrite List.filter_app, syscalls_spawn_nothing, app_nil_r. split; reflexivity.
Qed.

(** X7: with enhanced security mode on, [Report] runs the tamper check
    first.  If the check returns an error, [Report] returns no output
    and that error, starts no program and changes no file; if it
    returns nil, [Report] goes on to start the tool with the stored path
    and "omreport", the arguments, "-fmt", "xml". *)
Theorem Report_runs_tool_only_after_check args om w :
  omCLIProxyPath om <> "" ->
  enhancedSecurityMode om = true ->
  (forall err,
     fst (SuspiciousOMCLIProxyBinary (om, w)) = Some err ->
     fst (Report program args (om, w)) = ([], Some err)
     /\ spawned (snd (snd (Report program args (om, w)))) = spawned w
     /\ fs (snd (snd (Report program args (om, w)))) = fs w)
  /\ (fst (SuspiciousOMCLIProxyBinary (om, w)) = None ->
      fst (Report program args (om, w))
        = fst (program (omCLIProxyPath om)
                       ("omreport" :: args ++ ["-fmt"; "xml"])%list (fs w))
      /\ spawned (snd (snd (Report program args (om, w))))
         = (spawned w
              ++ [EvExec (omCLIProxyPath om)
                         ("omreport" :: args ++ ["-fmt"; "xml"])%list])%list).
Proof.
  intros Hne Hon. split.
  - intros err Hfail. rewrite (Report_when_check_fails _ _ _ _ Hne Hon Hfail).
    cbn [fst snd]. split; [reflexivity|]. apply Suspicious_spawns_nothing.
  - intros Hpass. rewrite (Report_when_check_passes _ _ _ Hne Hon Hpass).
    destruct (Suspicious_spawns_nothing om w) as [Hsp Hfs].
    destruct (SuspiciousOMCLIProxyBinary (om, w)) as [v [om' [m t tr]]].
    cbn [fst snd] in *. unfold CombinedOutput. run_st.
    unfold spawned in *. cbn [fs trace] in *. subst m.
    split; [reflexivity|].
    rewrite List.filter_app, Hsp. reflexivity.
Qed.

(** X9: when the tamper check of an enhanced client fails, every report
    method returns no value and the error of the check, and leaves the
    client and the world as the check left them: nothing is started and
    nothing is decoded. *)
Theorem report_methods_stop_at_failed_check om w err :
  omCLIProxyPath om <> "" ->
  enhancedSecurityMode om = true ->
  fst (SuspiciousOMCLIProxyBinary (om, w)) = Some err ->
  (forall args,
     report_into program T args (om, w)
     = ((None, Some err), snd (SuspiciousOMCLIProxyBinary (om, w))))
  /\ (forall o,
        snd (perform program T o (om, w))
        = snd (SuspiciousOMCLIProxyBinary (om, w)))
  /\ (forall cid,
        StoragePDisk program T cid (om, w)
        = ((None, Some err), snd (SuspiciousOMCLIProxyBinary (om, w)))).
Proof.
  intros Hne Hon Hfail.
  assert (Hinto : forall args,
    report_into program T args (om, w)
    = ((None, Some err), snd (SuspiciousOMCLIProxyBinary (om, w)))).
  { intros args. unfold report_into, bind.
    rewrite (Report_when_check_fails _ _ _ _ Hne Hon Hfail). reflexivity. }
  split; [exact Hinto|]. split; [|intros cid; apply Hinto].
  intros o. destruct o; cbn [perform]; rewrite forget_state;
    first [ rewrite (Report_when_check_fails _ _ _ _ Hne Hon Hfail); reflexivity
          | reflexivity
          | unfold About, Chassis, ChassisBatteries, ChassisFans, ChassisInfo,
              ChassisProcessors, ChassisMemory, ChassisTemps,
              ChassisPowerMonitoring, ChassisPowerSupplies, StorageController,
              StorageEnclosure, StorageVDisk, StoragePDisk;
            rewrite Hinto; reflexivity ].
Qed.

(** X10: on a client with enhanced security mode off, a report method
    starts the tool once; if the tool ends with an error the method
    returns no value and that error, whatever the tool printed;
    otherwise it returns what [xml.Unmarshal] makes of the output, or
    no value and the decoding error. *)
Theorem report_methods_decode_or_fail args om w :
  omCLIProxyPath om <> "" ->
  enhancedSecurityMode om = false ->
  let ran := program (omCLIProxyPath om)
                     ("omreport" :: args ++ ["-fmt"; "xml"])%list (fs w) in
  report_into program T args (om, w)
  = (match fst ran with
     | (_, Some err) => (None, Some err)
     | (data, None) =>
         match Unmarshal data zero with
         | (_, Some err) => (None, Some err)
         | (out, None) => (Some out, None)
         end
     end,
     (om, mkWorld (snd ran) (open_files w)
            (trace w ++ [EvExec (omCLIProxyPath om)
                                ("omreport" :: args ++ ["-fmt"; "xml"])%list]))).
Proof.
  intros Hne Hoff. destruct w as [m t tr]. cbn zeta.
  unfold report_into, bind. rewrite Report_spec by assumption. cbn zeta.
  rewrite Hoff. unfold command_line. cbn [fs open_files trace].
  destruct (program _ _ m) as [[data [err|]] m']; cbn [fst snd]; [reflexivity|].
  destruct (Unmarshal data zero) as [out [err|]]; reflexivity.
Qed.

(** X11: on a client with an empty path, [Report] first stores the
    default path /opt/dell/srvadmin/sbin/omcliproxy in the client and
    then behaves as on a client that had this path; the path stays
    stored whatever the call returns. *)
Theorem Report_falls_back_to_default_path args om w :
  omCLIProxyPath om = "" ->
  Report program args (om, w)
  = Report program args
      (mkOMReport "/opt/dell/srvadmin/sbin/omcliproxy"
                  (enhancedSecurityMode om) (sha256Checksum om), w)
  /\ omCLIProxyPath (fst (snd (Report program args (om, w))))
     = "/opt/dell/srvadmin/sbin/omcliproxy".
Proof.
  intros Hempty. destruct om as [p e c]. cbn in Hempty. subst p.
  assert (Heq : Report program args (mkOMReport "" e c, w)
                = Report program args
                    (mkOMReport "/opt/dell/srvadmin/sbin/omcliproxy" e c, w))
    by reflexivity.
  split; [exact Heq|].
  cbn [enhancedSecurityMode sha256Checksum]. rewrite Heq.
  rewrite Report_keeps_client; [reflexivity|discriminate].
Qed.

End MoreReportProperties.


(** ** The gate at work *)


Section GateAtWork.

Variable program :
  string -> list string -> gmap string node ->
  (list byte * option error) * gmap string node.

(** X8: for a client built by [NewOMReporter] with enhanced security
    mode on, and a readable regular file at its path later on: if the
    file's digest differs from the baseline, [Report] returns the
    mismatch error and starts nothing; if the file has the content it
    had at construction, [Report] starts the tool and returns what the
    tool returns. *)
Theorem Report_of_enhanced_client args cfg w om w1 :
  NewOMReporter cfg w = ((Some om, None), w1) ->
  EnhancedSecurityMode cfg = true ->
  forall w2 current,
    fs w2 !! OMCLIProxyPath cfg = Some (Regular current) ->
    Z.testbit (perm current) 8 = true ->
    cond current = Healthy ->
    (SHA256.Sum256 (data current) <> sha256Checksum om ->
     fst (Report program args (om, w2))
       = ([], Some (mismatch_error (SHA256.Sum256 (data current))
                                   (sha256Checksum om)))
     /\ spawned (snd (snd (Report program args (om, w2)))) = spawned w2
     /\ fs (snd (snd (Report program args (om, w2)))) = fs w2)
    /\ ((exists original,
           fs w !! OMCLIProxyPath cfg = Some (Regular original)
           /\ data current = data original) ->
        fst (Report program args (om, w2))
          = fst (program (OMCLIProxyPath cfg)
                         ("omreport" :: args ++ ["-fmt"; "xml"])%list (fs w2))
        /\ spawned (snd (snd (Report program args (om, w2))))
           = (spawned w2
                ++ [EvExec (OMCLIProxyPath cfg)
                           ("omreport" :: args ++ ["-fmt"; "xml"])%list])%list).
Proof.
  intros Hnew Hon [m t tr] current Hcur Hr Hc. cbn [fs] in Hcur.
  destruct (NewOMReporter_inv _ _ _ _ _ Hnew)
    as (_ & _ & Hne & _ & _ & f & Hn & _ & _ & ->).
  cbn [sha256Checksum].
  rewrite Report_spec by assumption. cbn zeta.
  cbn [enhancedSecurityMode omCLIProxyPath sha256Checksum]. rewrite Hon.
  rewrite (classify_regular _ _ _ Hcur), Hr, Hc.
  cbn [returned compare descriptors_after syscalls].
  unfold spawned. cbn [fs trace]. split.
  - intros Hdiff. rewrite (bytes_Equal_neq _ _ Hdiff). cbn [fst snd trace fs].
    rewrite List.filter_app. cbn. rewrite app_nil_r. repeat split.
  - intros (original & Ho & Hsame). rewrite Hn in Ho. injection Ho as <-.
    rewrite Hsame, bytes_Equal_refl. cbn [fst snd trace].
    split; [reflexivity|].
    rewrite !List.filter_app. cbn. rewrite app_nil_r. reflexivity.
Qed.

End GateAtWork.

(** ** Physical disk attributes *)

Lemma binary_value_from bits : forall n,
  fold_left (fun n b => 2 * n + Z.b2z b)%Z bits n
  = (n * 2 ^ Z.of_nat (length bits) + binary_value bits)%Z.
Proof.
  unfold binary_value. induction bits as [|b bits IH]; intros n.
  - cbn. lia.
  - cbn [fold_left length]. rewrite IH, (IH (2 * 0 + Z.b2z b)%Z).
    rewrite Nat2Z.inj_succ, Z.pow_succ_r by lia. lia.
Qed.

Lemma binary_value_bounds bits :
  (0 <= binary_value bits < 2 ^ Z.of_nat (length bits))%Z.
Proof.
  induction bits as [|b bits IH] using rev_ind.
  - cbn. lia.
  - unfold binary_value in *. rewrite fold_left_app, length_app. cbn.
    rewrite Nat2Z.inj_add, Z.pow_add_r by lia. destruct b; cbn; lia.
Qed.

Lemma binary_value_snoc bits b :
  binary_value (bits ++ [b]) = (2 * binary_value bits + Z.b2z b)%Z.
Proof. unfold binary_value. rewrite fold_left_app. reflexivity. Qed.

(** The digit [i] places from the right is bit [i] of the value. *)
Lemma binary_value_testbit bits : forall i : nat,
  Z.testbit (binary_value bits) (Z.of_nat i) = nth i (rev bits) false.
Proof.
  induction bits as [|b bits IH] using rev_ind; intros i.
  - cbn. rewrite Z.testbit_0_l. destruct i; reflexivity.
  - rewrite binary_value_snoc, rev_app_distr. cbn [rev app].
    destruct i as [|i].
    + cbn [nth]. apply Z.testbit_0_r.
    + cbn [nth]. rewrite Nat2Z.inj_succ, Z.testbit_succ_r by lia. apply IH.
Qed.

Lemma land_single_bit v k :
  (0 <= k)%Z ->
  Z.land v (2 ^ k) = if Z.testbit v k then (2 ^ k)%Z else 0%Z.
Proof.
  intros Hk. apply Z.bits_inj'. intros n Hn.
  rewrite Z.land_spec, Z.pow2_bits_eqb by lia.
  destruct (Z.eqb_spec k n) as [->|Hne].
  - destruct (Z.testbit v n) eqn:E; cbn.
    + rewrite Z.pow2_bits_true by lia. reflexivity.
    + rewrite Z.testbit_0_l. reflexivity.
  - rewrite andb_false_r. destruct (Z.testbit v k).
    + rewrite Z.pow2_bits_false by lia. reflexivity.
    + rewrite Z.testbit_0_l. reflexivity.
Qed.

Lemma flag_is_bit v (k : nat) :
  (Z.land v (Z.shiftl 1 (Z.of_nat k)) >? 0)%Z = Z.testbit v (Z.of_nat k).
Proof.
  rewrite Z.shiftl_1_l, land_single_bit by lia.
  destruct (Z.testbit v (Z.of_nat k)); [|reflexivity].
  assert (0 < 2 ^ Z.of_nat k)%Z by (apply Z.pow_pos_nonneg; lia).
  apply Z.gtb_lt. assumption.
Qed.

Lemma digit_bit_char b : strconv.digit (bit_char b) = Some (Z.b2z b).
Proof. destruct b; reflexivity. Qed.

(** [parse_digits] on binary digits: the value, unless it needs more
    than 64 bits. *)
Lemma parse_digits_binary bits : forall n,
  (0 <= n < 2 ^ 64)%Z ->
  strconv.parse_digits 2 (2 ^ 63) (2 ^ 64 - 1) (map bit_char bits) n
  = if (n * 2 ^ Z.of_nat (length bits) + binary_value bits <? 2 ^ 64)%Z
    then ((n * 2 ^ Z.of_nat (length bits) + binary_value bits)%Z, None)
    else ((2 ^ 64 - 1)%Z, Some strconv.ErrRange).
Proof.
  induction bits as [|b bits IH]; intros n Hn.
  - cbn [map strconv.parse_digits length]. change (binary_value []) with 0%Z.
    change (2 ^ Z.of_nat 0)%Z with 1%Z.
    destruct (Z.ltb_spec (n * 1 + 0) (2 ^ 64)); [|lia].
    f_equal. lia.
  - cbn [map strconv.parse_digits]. rewrite digit_bit_char.
    assert (Hd : (0 <= Z.b2z b <= 1)%Z) by (destruct b; cbn; lia).
    destruct (Z.geb_spec (Z.b2z b) 2) as [?|_]; [lia|].
    pose proof (binary_value_bounds bits) as Hv.
    assert (Hp : (0 < 2 ^ Z.of_nat (length bits))%Z)
      by (apply Z.pow_pos_nonneg; lia).
    assert (Hcons : (n * 2 ^ Z.of_nat (length (b :: bits)) + binary_value (b :: bits)
                     = (2 * n + Z.b2z b) * 2 ^ Z.of_nat (length bits)
                       + binary_value bits)%Z).
    { unfold binary_value at 1. cbn [fold_left length].
      rewrite binary_value_from, Nat2Z.inj_succ, Z.pow_succ_r by lia.
      cbn [Z.mul]. lia. }
    rewrite Hcons.
    destruct (Z.geb_spec n (2 ^ 63)) as [Hbig|Hsmall].
    + destruct (Z.ltb_spec ((2 * n + Z.b2z b) * 2 ^ Z.of_nat (length bits)
                            + binary_value bits) (2 ^ 64)); [nia|reflexivity].
    + rewrite (Z.mod_small (n * 2)) by lia.
      rewrite (Z.mod_small (n * 2 + Z.b2z b)) by lia.
      destruct (Z.ltb_spec (n * 2 + Z.b2z b) (n * 2)) as [?|_]; [lia|].
      destruct (Z.gtb_spec (n * 2 + Z.b2z b) (2 ^ 64 - 1)) as [?|_]; [lia|].
      cbn [orb]. rewrite IH by lia.
      replace (n * 2 + Z.b2z b)%Z with (2 * n + Z.b2z b)%Z by lia.
      reflexivity.
Qed.

Lemma binary_mask_chars bits :
  list_ascii_of_string (binary_mask bits) = map bit_char bits.
Proof. apply list_ascii_of_string_of_list_ascii. Qed.

(** [ParseInt] of a non-empty string of binary digits: the value when it
    fits 63 bits, the largest [int64] and a range error otherwise. *)
Lemma ParseInt_binary bits :
  bits <> [] ->
  strconv.ParseInt (binary_mask bits) 2 64
  = if (binary_value bits <? 2 ^ 63)%Z then (binary_value bits, None)
    else ((2 ^ 63 - 1)%Z,
          Some (strconv.mkNumError "ParseInt" (binary_mask bits) strconv.ErrRange)).
Proof.
  intros Hne. destruct bits as [|b bits]; [contradiction|].
  pose proof (binary_value_bounds (b :: bits)) as Hv.
  pose proof (parse_digits_binary (b :: bits) 0 ltac:(lia)) as Hp.
  rewrite Z.mul_0_l, Z.add_0_l in Hp.
  assert (Hsign : (Ascii.eqb (bit_char b) "+" || Ascii.eqb (bit_char b) "-")%bool = false)
    by (destruct b; reflexivity).
  assert (Hneg : Ascii.eqb (bit_char b) "-" = false) by (destruct b; reflexivity).
  assert (Hnonempty : String.eqb (binary_mask (b :: bits)) "" = false)
    by reflexivity.
  unfold strconv.ParseInt.
  change (binary_mask (b :: bits)) with (String (bit_char b) (binary_mask bits)) at 1.
  cbv beta iota zeta. rewrite Hsign, Hneg.
  change (String (bit_char b) (binary_mask bits)) with (binary_mask (b :: bits)).
  unfold strconv.ParseUint. rewrite Hnonempty.
  change (negb ((2 <=? 2)%Z && (2 <=? 36)%Z)) with false.
  change (negb ((1 <=? 64)%Z && (64 <=? 64)%Z)) with false.
  cbv beta iota zeta.
  change (strconv.maxUint64 / 2 + 1)%Z with (2 ^ 63)%Z.
  rewrite binary_mask_chars, Hp.
  change (2 ^ (64 - 1))%Z with (2 ^ 63)%Z.
  change (strconv.int64 (2 ^ 63 - 1)) with (2 ^ 63 - 1)%Z.
  cbn [negb andb].
  destruct (Z.ltb_spec (binary_value (b :: bits)) (2 ^ 64)) as [H64|H64];
    cbv beta iota.
  - destruct (Z.geb_spec (binary_value (b :: bits)) (2 ^ 63)) as [H63|H63];
      destruct (Z.ltb_spec (binary_value (b :: bits)) (2 ^ 63)); try lia.
    + reflexivity.
    + unfold strconv.int64. rewrite Z.mod_small by lia. f_equal. lia.
  - destruct (Z.ltb_spec (binary_value (b :: bits)) (2 ^ 63)); [lia|].
    reflexivity.
Qed.


Lemma not_binary_digit c :
  c <> "0"%char -> c <> "1"%char ->
  match strconv.digit c with
  | Some d => (d >=? 2)%Z
  | None => true
  end = true.
Proof.
  intros H0 H1.
  destruct c as [b0 b1 b2 b3 b4 b5 b6 b7].
  destruct b0, b1, b2, b3, b4, b5, b6, b7;
    first [ reflexivity | exfalso; apply H0; reflexivity
          | exfalso; apply H1; reflexivity ].
Qed.

(** [parse_digits] stops with a syntax error at the first character
    that is not a binary digit, provided the digits before it did not
    overflow. *)
Lemma parse_digits_bad_char pre c rest : forall n,
  (0 <= n)%Z ->
  (n * 2 ^ Z.of_nat (length pre) + binary_value pre < 2 ^ 64)%Z ->
  c <> "0"%char -> c <> "1"%char ->
  strconv.parse_digits 2 (2 ^ 63) (2 ^ 64 - 1) (map bit_char pre ++ c :: rest) n
  = (0%Z, Some strconv.ErrSyntax).
Proof.
  induction pre as [|b pre IH]; intros n Hn Hfit H0 H1.
  - cbn [map app strconv.parse_digits].
    pose proof (not_binary_digit c H0 H1) as Hc.
    destruct (strconv.digit c) as [d|]; [|reflexivity]. rewrite Hc. reflexivity.
  - cbn [map app strconv.parse_digits]. rewrite digit_bit_char.
    assert (Hd : (0 <= Z.b2z b <= 1)%Z) by (destruct b; cbn; lia).
    destruct (Z.geb_spec (Z.b2z b) 2) as [?|_]; [lia|].
    pose proof (binary_value_bounds pre) as Hv.
    assert (Hp : (0 < 2 ^ Z.of_nat (length pre))%Z)
      by (apply Z.pow_pos_nonneg; lia).
    assert (Hcons : (n * 2 ^ Z.of_nat (length (b :: pre)) + binary_value (b :: pre)
                     = (2 * n + Z.b2z b) * 2 ^ Z.of_nat (length pre)
                       + binary_value pre)%Z).
    { unfold binary_value at 1. cbn [fold_left length].
      rewrite binary_value_from, Nat2Z.inj_succ, Z.pow_succ_r by lia.
      cbn [Z.mul]. lia. }
    rewrite Hcons in Hfit.
    destruct (Z.geb_spec n (2 ^ 63)) as [Hbig|Hsmall]; [nia|].
    rewrite (Z.mod_small (n * 2)) by lia.
    rewrite (Z.mod_small (n * 2 + Z.b2z b)) by lia.
    destruct (Z.ltb_spec (n * 2 + Z.b2z b) (n * 2)) as [?|_]; [lia|].
    destruct (Z.gtb_spec (n * 2 + Z.b2z b) (2 ^ 64 - 1)) as [?|_]; [lia|].
    cbn [orb]. apply IH; try assumption; [lia|].
    replace (n * 2 + Z.b2z b)%Z with (2 * n + Z.b2z b)%Z by lia. exact Hfit.
Qed.

Lemma ParseInt_syntax s c0 r :
  s = String c0 r ->
  (Ascii.eqb c0 "+" || Ascii.eqb c0 "-")%bool = false ->
  strconv.parse_digits 2 (2 ^ 63) (2 ^ 64 - 1) (list_ascii_of_string s) 0
    = (0%Z, Some strconv.ErrSyntax) ->
  strconv.ParseInt s 2 64
  = (0%Z, Some (strconv.mkNumError "ParseInt" s strconv.ErrSyntax)).
Proof.
  intros Hs Hsign Hparse.
  assert (Hneg : Ascii.eqb c0 "-" = false).
  { destruct (Ascii.eqb c0 "-"); [|reflexivity].
    rewrite orb_true_r in Hsign. discriminate. }
  unfold strconv.ParseInt. rewrite Hs at 1. cbv beta iota zeta.
  rewrite Hsign.
  unfold strconv.ParseUint.
  assert (Hnonempty : String.eqb s "" = false) by (rewrite Hs; reflexivity).
  rewrite Hnonempty.
  change (negb ((2 <=? 2)%Z && (2 <=? 36)%Z)) with false.
  change (negb ((1 <=? 64)%Z && (64 <=? 64)%Z)) with false.
  cbv beta iota zeta.
  change (strconv.maxUint64 / 2 + 1)%Z with (2 ^ 63)%Z.
  rewrite Hparse. reflexivity.
Qed.

Lemma list_ascii_of_string_app s1 s2 :
  list_ascii_of_string (s1 +:+ s2)
  = (list_ascii_of_string s1 ++ list_ascii_of_string s2)%list.
Proof.
  induction s1 as [|c s1 IH]; [reflexivity|].
  change (list_ascii_of_string (String c s1 +:+ s2))
    with (c :: list_ascii_of_string (s1 +:+ s2)).
  rewrite IH. reflexivity.
Qed.

Lemma ParseInt_damaged mask :
  damaged mask ->
  strconv.ParseInt mask 2 64
  = (0%Z, Some (strconv.mkNumError "ParseInt" mask strconv.ErrSyntax)).
Proof.
  intros [->|(pre & c & rest & -> & Hfit & H0 & H1 & Hplus & Hminus)];
    [reflexivity|].
  assert (Hc : (Ascii.eqb c "+" || Ascii.eqb c "-")%bool = false).
  { destruct (Ascii.eqb_spec c "+"); [contradiction|].
    destruct (Ascii.eqb_spec c "-"); [contradiction|]. reflexivity. }
  assert (Hparse :
    strconv.parse_digits 2 (2 ^ 63) (2 ^ 64 - 1)
      (list_ascii_of_string (binary_mask pre +:+ String c rest)) 0
    = (0%Z, Some strconv.ErrSyntax)).
  { rewrite list_ascii_of_string_app, binary_mask_chars.
    apply parse_digits_bad_char; try assumption; lia. }
  destruct pre as [|b pre].
  - apply (ParseInt_syntax _ c rest); [reflexivity|exact Hc|exact Hparse].
  - apply (ParseInt_syntax _ (bit_char b) (binary_mask pre +:+ String c rest));
      [reflexivity|destruct b; reflexivity|exact Hparse].
Qed.

(** X12: for a mask of 1 to 63 binary digits the three attribute methods
    return, with a nil error, the digit 11, 7 and 8 places from the right
    (a missing digit counts as 0). *)
Theorem PDisk_attributes_read_mask_digits p bits :
  PDisk_AttributesMask p = binary_mask bits ->
  bits <> [] ->
  (length bits <= 63)%nat ->
  FailurePredicted p = (nth 11 (rev bits) false, None)
  /\ GlobalHotSpare p = (nth 7 (rev bits) false, None)
  /\ DedicatedHotSpare p = (nth 8 (rev bits) false, None).
Proof.
  intros Hmask Hne Hlen.
  pose proof (binary_value_bounds bits) as Hv.
  assert (Hpow : (2 ^ Z.of_nat (length bits) <= 2 ^ 63)%Z)
    by (apply Z.pow_le_mono_r; lia).
  unfold FailurePredicted, GlobalHotSpare, DedicatedHotSpare.
  rewrite Hmask, (ParseInt_binary bits Hne).
  destruct (Z.ltb_spec (binary_value bits) (2 ^ 63)); [|lia].
  change AttrFailurePredicted with (Z.shiftl 1 (Z.of_nat 11)).
  change AttrGlobalHS with (Z.shiftl 1 (Z.of_nat 7)).
  change AttrDedicatedHS with (Z.shiftl 1 (Z.of_nat 8)).
  rewrite !flag_is_bit, !binary_value_testbit. repeat split.
Qed.

(** X13: a damaged mask makes the three methods return false and the
    syntax error of [ParseInt], which names the mask. *)
Theorem PDisk_attributes_of_damaged_mask p :
  damaged (PDisk_AttributesMask p) ->
  let err := Some (strconv.mkNumError "ParseInt" (PDisk_AttributesMask p)
                     strconv.ErrSyntax) in
  FailurePredicted p = (false, err)
  /\ GlobalHotSpare p = (false, err)
  /\ DedicatedHotSpare p = (false, err).
Proof.
  intros Hbad. unfold FailurePredicted, GlobalHotSpare, DedicatedHotSpare.
  rewrite (ParseInt_damaged _ Hbad). repeat split.
Qed.

(** X14: a mask of binary digits whose value does not fit 63 bits makes
    the three methods return true together with the range error: the
    parsed value is replaced by the largest [int64], which has every
    attribute bit set. *)
Theorem PDisk_attributes_of_oversized_mask p bits :
  PDisk_AttributesMask p = binary_mask bits ->
  (2 ^ 63 <= binary_value bits)%Z ->
  let err := Some (strconv.mkNumError "ParseInt" (PDisk_AttributesMask p)
                     strconv.ErrRange) in
  FailurePredicted p = (true, err)
  /\ GlobalHotSpare p = (true, err)
  /\ DedicatedHotSpare p = (true, err).
Proof.
  intros Hmask Hbig.
  assert (Hne : bits <> []).
  { intros ->. change (binary_value []) with 0%Z in Hbig. lia. }
  unfold FailurePredicted, GlobalHotSpare, DedicatedHotSpare.
  rewrite Hmask, (ParseInt_binary bits Hne).
  destruct (Z.ltb_spec (binary_value bits) (2 ^ 63)); [lia|].
  repeat split.
Qed.


(** ** More on the code tables *)

Lemma intstring_not_a_code_point c :
  not_a_code_point c -> utf8.intstring c = replacement.
Proof.
  unfold not_a_code_point, utf8.intstring. intros Hc.
  destruct (Z.leb_spec (- 2 ^ 31) c) as [Hlo|Hlo];
    destruct (Z.ltb_spec c (2 ^ 31)) as [Hhi|Hhi]; cbn [andb];
    try reflexivity.
  unfold utf8.encoderune.
  assert (Hmod : (c mod 2 ^ 32 = c /\ 0 <= c)%Z
                 \/ (c mod 2 ^ 32 = c + 2 ^ 32 /\ c < 0)%Z).
  { destruct (Z.lt_ge_cases c 0) as [Hneg|Hpos].
    - right. split; [|assumption].
      symmetry. apply (Z.mod_unique_pos _ _ (-1)); lia.
    - left. split; [|assumption]. apply Z.mod_small. lia. }
  unfold utf8.rune1Max, utf8.rune2Max, utf8.rune3Max, utf8.MaxRune,
    utf8.surrogateMin, utf8.surrogateMax in *.
  destruct Hmod as [[-> Hpos]|[-> Hneg]].
  - destruct (Z.leb_spec c 127); [lia|].
    destruct (Z.leb_spec c 2047); [lia|].
    destruct (Z.ltb_spec 1114111 c); [reflexivity|].
    destruct (Z.leb_spec 55296 c); [|lia].
    destruct (Z.leb_spec c 57343); [|lia]. reflexivity.
  - destruct (Z.leb_spec (c + 2 ^ 32) 127); [lia|].
    destruct (Z.leb_spec (c + 2 ^ 32) 2047); [lia|].
    destruct (Z.ltb_spec 1114111 (c + 2 ^ 32)); [reflexivity|lia].
Qed.

(** X15: a code that is no Unicode code point (negative, above 0x10FFFF
    or a surrogate) and is not in the table is rendered with the
    replacement character U+FFFD in place of the code, so all such
    codes give the same string; the N/A marker [NaN] is one of them. *)
Theorem codes_outside_unicode_render_alike c :
  not_a_code_point c ->
  (~ In c Status_codes ->
   Status_String c = "Unknown status code " +:+ replacement)
  /\ (~ In c State_codes ->
      State_String c = "Unknown state code " +:+ replacement)
  /\ (~ In c BusProtocol_codes ->
      BusProtocol_String c = "Unknown bus protocol code " +:+ replacement)
  /\ (~ In c Layout_codes ->
      Layout_String c = "Unknown layout code " +:+ replacement)
  /\ Status_String NaN = Status_String (-1).
Proof.
  intros Hc. rewrite <- (intstring_not_a_code_point c Hc).
  repeat split; try (intros Hk; apply switch_default; exact Hk).
Qed.

Ltac label_of H :=
  match type of H with
  | ?l = _ => let v := eval vm_compute in l in change l with v in H
  end.

Ltac known_codes Ha :=
  cbn [In Status_codes State_codes BusProtocol_codes Layout_codes] in Ha;
  repeat (destruct Ha as [<-|Ha]); try contradiction.

Ltac distinct_labels render prefix codes :=
  let a := fresh "a" in
  let b := fresh "b" in
  let Ha := fresh "Ha" in
  let Heq := fresh "Heq" in
  let Hb := fresh "Hb" in
  let Hs := fresh "Hs" in
  intros a b Ha Heq;
  destruct (in_dec Z.eq_dec b codes) as [Hb|Hb];
  [ known_codes Ha; known_codes Hb;
    first [reflexivity | vm_compute in Heq; discriminate Heq]
  | assert (Hs : render b = prefix +:+ utf8.intstring b)
      by (apply switch_default; exact Hb);
    rewrite Hs in Heq;
    known_codes Ha; label_of Heq;
    cbn [String.append] in Heq; discriminate Heq ].

Lemma Status_label_names_code :
  forall a b, In a Status_codes -> Status_String a = Status_String b -> a = b.
Proof. distinct_labels Status_String "Unknown status code " Status_codes. Qed.

Lemma State_label_names_code :
  forall a b, In a State_codes -> State_String a = State_String b -> a = b.
Proof. distinct_labels State_String "Unknown state code " State_codes. Qed.

Lemma BusProtocol_label_names_code :
  forall a b, In a BusProtocol_codes ->
    BusProtocol_String a = BusProtocol_String b -> a = b.
Proof. distinct_labels BusProtocol_String "Unknown bus protocol code " BusProtocol_codes. Qed.

Lemma Layout_label_names_code :
  forall a b, In a Layout_codes -> Layout_String a = Layout_String b -> a = b.
Proof. distinct_labels Layout_String "Unknown layout code " Layout_codes. Qed.

(** X16: the label of a code of the table names that code: no other
    code, in the table or not, is rendered with the same string. *)
Theorem known_labels_name_their_code a b :
  (In a Status_codes -> Status_String a = Status_String b -> a = b)
  /\ (In a State_codes -> State_String a = State_String b -> a = b)
  /\ (In a BusProtocol_codes ->
      BusProtocol_String a = BusProtocol_String b -> a = b)
  /\ (In a Layout_codes -> Layout_String a = Layout_String b -> a = b).
Proof.
  repeat split.
  - apply Status_label_names_code.
  - apply State_label_names_code.
  - apply BusProtocol_label_names_code.
  - apply Layout_label_names_code.
Qed.

(** ** Instances *)

Lemma PDisk_attributes_read_mask_digits_witness :
  PDisk_AttributesMask (disk "100010000000") = binary_mask mask_bits
  /\ mask_bits <> []
  /\ (length mask_bits <= 63)%nat
  /\ FailurePredicted (disk "100010000000") = (true, None)
  /\ GlobalHotSpare (disk "100010000000") = (true, None)
  /\ DedicatedHotSpare (disk "100010000000") = (false, None).
Proof.
  assert (H1 : PDisk_AttributesMask (disk "100010000000") = binary_mask mask_bits)
    by reflexivity.
  assert (H2 : mask_bits <> []) by discriminate.
  assert (H3 : (length mask_bits <= 63)%nat) by (cbn; lia).
  split; [exact H1|]. split; [exact H2|]. split; [exact H3|].
  exact (PDisk_attributes_read_mask_digits (disk "100010000000") mask_bits H1 H2 H3).
Defined.

Lemma PDisk_attributes_of_damaged_mask_witness :
  damaged (PDisk_AttributesMask (disk "10x1"))
  /\ FailurePredicted (disk "10x1")
     = (false, Some (strconv.mkNumError "ParseInt" "10x1" strconv.ErrSyntax))
  /\ damaged (PDisk_AttributesMask (disk ""))
  /\ GlobalHotSpare (disk "")
     = (false, Some (strconv.mkNumError "ParseInt" "" strconv.ErrSyntax)).
Proof.
  assert (H1 : damaged (PDisk_AttributesMask (disk "10x1"))).
  { right. exists [true; false], "x"%char, "1".
    split; [reflexivity|]. split; [reflexivity|].
    repeat split; discriminate. }
  assert (H2 : damaged (PDisk_AttributesMask (disk ""))) by (left; reflexivity).
  split; [exact H1|]. split.
  - exact (proj1 (PDisk_attributes_of_damaged_mask (disk "10x1") H1)).
  - split; [exact H2|].
    exact (proj1 (proj2 (PDisk_attributes_of_damaged_mask (disk "") H2))).
Defined.

Lemma PDisk_attributes_of_oversized_mask_witness :
  PDisk_AttributesMask (disk (binary_mask all_ones)) = binary_mask all_ones
  /\ (2 ^ 63 <= binary_value all_ones)%Z
  /\ FailurePredicted (disk (binary_mask all_ones))
     = (true, Some (strconv.mkNumError "ParseInt" (binary_mask all_ones)
                      strconv.ErrRange)).
Proof.
  assert (H1 : PDisk_AttributesMask (disk (binary_mask all_ones))
               = binary_mask all_ones) by reflexivity.
  assert (H2 : (2 ^ 63 <= binary_value all_ones)%Z)
    by (vm_compute; discriminate).
  split; [exact H1|]. split; [exact H2|].
  exact (proj1 (PDisk_attributes_of_oversized_mask
                  (disk (binary_mask all_ones)) all_ones H1 H2)).
Defined.

Lemma fileSha256_descriptor_account_witness :
  snd (fst (fileSha256 installed (boot disk_dir)))
    = Some (PathError "read" installed EISDIR)
  /\ (exists d, open_files (snd (fileSha256 installed (boot disk_dir)))
                = <[os.next_fd (open_files (boot disk_dir)) := d]>
                    (open_files (boot disk_dir))
                /\ d_name d = installed)
  /\ open_files (snd (fileSha256 installed (boot disk_foo)))
     = open_files (boot disk_foo).
Proof.
  assert (H1 : snd (fst (fileSha256 installed (boot disk_dir)))
               = Some (PathError "read" installed EISDIR))
    by (vm_compute; reflexivity).
  split; [exact H1|]. split.
  - exact (proj2 (proj2 (fileSha256_descriptor_account installed (boot disk_dir))
                    EISDIR H1)).
  - apply (proj1 (fileSha256_descriptor_account installed (boot disk_foo))).
    intros e. vm_compute. discriminate.
Defined.


Lemma tamper_check_follows_links_witness :
  fs (boot disk_link) !! omCLIProxyPath (client_foo true)
    = Some (Link "/tmp/omcliproxy")
  /\ fs (boot disk_link) !! "/tmp/omcliproxy" = Some (binary "foo" 0 7)
  /\ fst (SuspiciousOMCLIProxyBinary (client_foo true, boot disk_link)) = None
  /\ exists err,
       fst (NewOMReporter (mkConfig installed true) (boot disk_link))
       = (None, Some err).
Proof.
  assert (H1 : fs (boot disk_link) !! omCLIProxyPath (client_foo true)
               = Some (Link "/tmp/omcliproxy")) by (vm_compute; reflexivity).
  assert (H2 : fs (boot disk_link) !! "/tmp/omcliproxy" = Some (binary "foo" 0 7))
    by (vm_compute; reflexivity).
  pose proof (tamper_check_follows_links (client_foo true) (boot disk_link)
                "/tmp/omcliproxy" _ H1 H2 eq_refl eq_refl) as (_ & Hsame & Hnew).
  split; [exact H1|]. split; [exact H2|]. split.
  - exact (Hsame eq_refl).
  - exact (Hnew true).
Defined.

Lemma tamper_check_needs_a_baseline_witness :
  length (sha256Checksum (mkOMReport installed true [])) <> 32%nat
  /\ exists err,
       fst (SuspiciousOMCLIProxyBinary (mkOMReport installed true [], boot disk_foo))
       = Some err.
Proof.
  assert (H1 : length (sha256Checksum (mkOMReport installed true [])) <> 32%nat)
    by (cbn; lia).
  split; [exact H1|].
  exact (tamper_check_needs_a_baseline (mkOMReport installed true [])
           (boot disk_foo) H1).
Defined.

Lemma Report_runs_tool_only_after_check_witness :
  omCLIProxyPath (client_foo true) <> ""
  /\ enhancedSecurityMode (client_foo true) = true
  /\ fst (SuspiciousOMCLIProxyBinary (client_foo true, boot disk_bar))
     = Some (mismatch_error sha_bar sha_foo)
  /\ fst (Report quiet ["chassis"] (client_foo true, boot disk_bar))
     = ([], Some (mismatch_error sha_bar sha_foo))
  /\ spawned (snd (snd (Report quiet ["chassis"] (client_foo true, boot disk_bar))))
     = spawned (boot disk_bar)
  /\ fst (SuspiciousOMCLIProxyBinary (client_foo true, boot disk_foo_again)) = None
  /\ spawned (snd (snd (Report quiet ["chassis"]
                          (client_foo true, boot disk_foo_again))))
     = [EvExec installed ["omreport"; "chassis"; "-fmt"; "xml"]].
Proof.
  assert (H1 : omCLIProxyPath (client_foo true) <> "") by discriminate.
  assert (H2 : enhancedSecurityMode (client_foo true) = true) by reflexivity.
  assert (H3 : fst (SuspiciousOMCLIProxyBinary (client_foo true, boot disk_bar))
               = Some (mismatch_error sha_bar sha_foo)) by (vm_compute; reflexivity).
  assert (H4 : fst (SuspiciousOMCLIProxyBinary (client_foo true, boot disk_foo_again))
               = None) by (vm_compute; reflexivity).
  destruct (Report_runs_tool_only_after_check quiet ["chassis"]
              (client_foo true) (boot disk_bar) H1 H2) as [Hfail _].
  destruct (Report_runs_tool_only_after_check quiet ["chassis"]
              (client_foo true) (boot disk_foo_again) H1 H2) as [_ Hpass].
  split; [exact H1|]. split; [exact H2|]. split; [exact H3|].
  split; [exact (proj1 (Hfail _ H3))|].
  split; [exact (proj1 (proj2 (Hfail _ H3)))|].
  split; [exact H4|]. exact (proj2 (Hpass H4)).
Defined.

Lemma report_methods_stop_at_failed_check_witness :
  omCLIProxyPath (client_foo true) <> ""
  /\ enhancedSecurityMode (client_foo true) = true
  /\ fst (SuspiciousOMCLIProxyBinary (client_foo true, boot disk_bar))
     = Some (mismatch_error sha_bar sha_foo)
  /\ fst (ChassisFans quiet unit (client_foo true, boot disk_bar))
     = (None, Some (mismatch_error sha_bar sha_foo)).
Proof.
  assert (H1 : omCLIProxyPath (client_foo true) <> "") by discriminate.
  assert (H2 : enhancedSecurityMode (client_foo true) = true) by reflexivity.
  assert (H3 : fst (SuspiciousOMCLIProxyBinary (client_foo true, boot disk_bar))
               = Some (mismatch_error sha_bar sha_foo)) by (vm_compute; reflexivity).
  split; [exact H1|]. split; [exact H2|]. split; [exact H3|].
  exact (f_equal fst
           (proj1 (report_methods_stop_at_failed_check quiet unit
                     (client_foo true) (boot disk_bar) _ H1 H2 H3)
              ["chassis"; "fans"])).
Defined.

Lemma report_methods_decode_or_fail_witness :
  omCLIProxyPath (client_foo false) <> ""
  /\ enhancedSecurityMode (client_foo false) = false
  /\ fst (StorageVDisk failing unit (client_foo false, boot disk_foo))
     = (None, Some (ExecError "exit status 1"))
  /\ fst (StorageVDisk quiet unit (client_foo false, boot disk_foo))
     = (Some tt, None).
Proof.
  assert (H1 : omCLIProxyPath (client_foo false) <> "") by discriminate.
  assert (H2 : enhancedSecurityMode (client_foo false) = false) by reflexivity.
  split; [exact H1|]. split; [exact H2|]. split.
  - exact (f_equal fst
             (report_methods_decode_or_fail failing unit ["storage"; "vdisk"]
                (client_foo false) (boot disk_foo) H1 H2)).
  - exact (f_equal fst
             (report_methods_decode_or_fail quiet unit ["storage"; "vdisk"]
                (client_foo false) (boot disk_foo) H1 H2)).
Defined.

Lemma Report_falls_back_to_default_path_witness :
  omCLIProxyPath unbuilt_client = ""
  /\ omCLIProxyPath (fst (snd (Report quiet ["about"] (unbuilt_client, boot disk_foo))))
     = installed
  /\ trace (snd (snd (Report quiet ["about"] (unbuilt_client, boot disk_foo))))
     = [EvExec installed ["omreport"; "about"; "-fmt"; "xml"]].
Proof.
  assert (H1 : omCLIProxyPath unbuilt_client = "") by reflexivity.
  destruct (Report_falls_back_to_default_path quiet ["about"] unbuilt_client
              (boot disk_foo) H1) as [Heq Hpath].
  split; [exact H1|]. split; [exact Hpath|].
  rewrite Heq. vm_compute. reflexivity.
Defined.

Lemma codes_outside_unicode_render_alike_witness :
  not_a_code_point NaN
  /\ ~ In NaN Status_codes
  /\ Status_String NaN = "Unknown status code " +:+ replacement.
Proof.
  assert (H1 : not_a_code_point NaN) by (left; vm_compute; reflexivity).
  assert (H2 : ~ In NaN Status_codes) by (cbn; intuition discriminate).
  split; [exact H1|]. split; [exact H2|].
  exact (proj1 (codes_outside_unicode_render_alike NaN H1) H2).
Defined.

Lemma known_labels_name_their_code_witness :
  In StateDegraded State_codes
  /\ State_String StateDegraded = State_String 32
  /\ StateDegraded = 32%Z.
Proof.
  assert (H1 : In StateDegraded State_codes) by (cbn; tauto).
  assert (H2 : State_String StateDegraded = State_String 32) by reflexivity.
  split; [exact H1|]. split; [exact H2|].
  exact (proj1 (proj2 (known_labels_name_their_code StateDegraded 32)) H1 H2).
Defined.


Lemma Report_of_enhanced_client_witness :
  NewOMReporter (mkConfig installed true) (boot disk_foo)
    = ((Some (client_foo true), None), after_construction)
  /\ EnhancedSecurityMode (mkConfig installed true) = true
  /\ fs (boot disk_bar) !! installed = Some (binary "bar" 5 7)
  /\ sha_bar <> sha_foo
  /\ fst (Report quiet ["about"] (client_foo true, boot disk_bar))
     = ([], Some (mismatch_error sha_bar sha_foo))
  /\ spawned (snd (snd (Report quiet ["about"] (client_foo true, boot disk_bar))))
     = [].
Proof.
  assert (H0 : NewOMReporter (mkConfig installed true) (boot disk_foo)
               = ((Some (client_foo true), None), after_construction))
    by (vm_compute; reflexivity).
  assert (H1 : fs (boot disk_bar) !! installed = Some (binary "bar" 5 7))
    by (vm_compute; reflexivity).
  assert (H2 : sha_bar <> sha_foo) by (vm_compute; discriminate).
  destruct (Report_of_enhanced_client quiet ["about"] (mkConfig installed true)
              (boot disk_foo) (client_foo true) after_construction H0 eq_refl
              (boot disk_bar) _ H1 eq_refl eq_refl) as [Hdiff _].
  destruct (Hdiff H2) as (Hr & Hs & _).
  split; [exact H0|]. split; [reflexivity|]. split; [exact H1|].
  split; [exact H2|]. split; [exact Hr|exact Hs].
Defined.
